(** * AP_MotorsHeli_RSC: rotor speed controller

    Shallow embedding of libraries/AP_Motors/AP_MotorsHeli_RSC.cpp and the
    properties of its tick function [output].  Member functions take the
    controller state and return the new one; [output] also returns what it
    did to the output channel, and takes the clock reading as an argument.
    [init_servo], which only registers the default channel, is left out.

    Numeric model.  The C++ [float] is modelled by the exact rationals [Q]:
    rounding, infinities and NaN are not represented, and the float literals
    0.001f, 1.0e-6f and 0.01f stand for the rationals they denote.  Equality
    of computed values is therefore [Qeq] ([==]); where the code merely copies
    a value the theorems state Leibniz equality.  The numbered theorems
    conclude what does not depend on exact arithmetic: copies of values,
    comparisons, integer facts and the code's own one-step expressions,
    which read the same with the operators taken as binary32 operations; the
    examples evaluate the rational model on concrete inputs.  Sums
    accumulated over many ticks round at every step: module [Binary32]
    replays the two estimators in IEEE 754 binary32 ([SpecFloat]) where that
    matters.
    Integer fields are [Z]; the width of each C++ type is written out where
    the code depends on it (the unsigned 64-bit time difference, the
    conversions to uint16_t). *)

From Stdlib Require Import ZArith QArith Qabs Qminmax Qround Lqa Lia Bool List.
From Stdlib Require Import SpecFloat.
Import ListNotations.

Open Scope Q_scope.

(** ** Scalars *)

Definition float := Q.

(** [a < b] and [a <= b] on floats, as the booleans the C++ tests produce. *)
Definition flt (a b : float) : bool := negb (Qle_bool b a).
Definition fle (a b : float) : bool := Qle_bool a b.

Definition fabs (a : float) : float := Qabs a.

(** Modelled from the spec: constrain_float is declared in AP_Math, which is
    not among the sources; "clamp" to the interval [low, high], lower bound
    tested first. *)
Definition constrain_float (amt low high : float) : float :=
  if flt amt low then low
  else if flt high amt then high
  else amt.

(** Conversion of a float to uint16_t: truncation toward zero.  C++ leaves the
    conversion undefined when the truncated value is not representable, which
    is [None] here. *)
Definition float_to_uint16 (x : float) : option Z :=
  let t := Z.quot (Qnum x) (Zpos (Qden x)) in
  if ((0 <=? t) && (t <? 65536))%Z then Some t else None.

(** Conversion of an int to uint16_t: reduction modulo 2^16. *)
Definition int_to_uint16 (z : Z) : Z := (z mod 65536)%Z.

(** ** Enumerations *)

Inductive RotorControlState : Type :=
| ROTOR_CONTROL_STOP
| ROTOR_CONTROL_IDLE
| ROTOR_CONTROL_ACTIVE.

Inductive RotorControlMode : Type :=
| ROTOR_CONTROL_MODE_DISABLED
| ROTOR_CONTROL_MODE_SPEED_PASSTHROUGH
| ROTOR_CONTROL_MODE_SPEED_SETPOINT
| ROTOR_CONTROL_MODE_OPEN_LOOP_POWER_OUTPUT
| ROTOR_CONTROL_MODE_GOVERNOR.

Definition mode_is_disabled (m : RotorControlMode) : bool :=
  match m with
  | ROTOR_CONTROL_MODE_DISABLED => true
  | _ => false
  end.

(** ** The governor's PID controller

    An external collaborator: only the two methods the governor path calls.
    [get_pid] returns the controller output and the controller's new state. *)

Class AC_PID (P : Type) : Type := {
  set_input_filter_all : float -> P -> P;
  get_pid : P -> float * P
}.

(** A proportional-only controller, used to run the model on concrete
    inputs. *)
Record P_controller : Type := {
  kP : float;
  p_input : float
}.

#[export] Instance P_controller_pid : AC_PID P_controller := {
  set_input_filter_all := fun e c => {| kP := kP c; p_input := e |};
  get_pid := fun c => (kP c * p_input c, c)
}.

(** What one call of [write_rsc] does to the output channel. *)
Inductive srv_effect : Type :=
| NoOutput
| SetOutputPwm (pwm : Z)
| UndefinedConversion.

(** ** Controller state *)

Section Controller.

Context {PID : Type} `{AC_PID PID}.

(** Modelled from the spec: the class declaration (AP_MotorsHeli_RSC.h) is not
    among the sources.  The fields are those the member functions read and
    write; the integer ones follow the setters' parameter types (uint16_t
    slew rate, int16_t governor setpoint and deadband), the whole-unit times
    "coerced to 1" and the integral microsecond PWM limits of the spec.  The
    PID controller reached through the [_pid_rotor_gov] pointer is part of the
    state; a null pointer is [None]. *)
Record AP_MotorsHeli_RSC : Type := {
  last_update_us : Z;
  control_mode : RotorControlMode;
  critical_speed : float;
  idle_output : float;
  desired_speed : float;
  control_output : float;
  rotor_ramp_output : float;
  rotor_runup_output : float;
  ramp_time : Z;
  runup_time : Z;
  runup_complete : bool;
  power_output_low : float;
  power_output_high : float;
  power_output_negc : float;
  power_slewrate : Z;
  load_feedforward : float;
  pwm_min : Z;
  pwm_max : Z;
  pwm_rev : Z;
  gov_enabled : bool;
  governor_rpm_setpoint : Z;
  governor_rpm_deadband : Z;
  rpm_feedback : float;
  pid_rotor_gov : option PID
}.

(** Field assignments. *)

Definition with_last_update_us (v : Z) (s : AP_MotorsHeli_RSC) :=
  {| last_update_us := v; control_mode := control_mode s;
     critical_speed := critical_speed s; idle_output := idle_output s;
     desired_speed := desired_speed s; control_output := control_output s;
     rotor_ramp_output := rotor_ramp_output s;
     rotor_runup_output := rotor_runup_output s;
     ramp_time := ramp_time s; runup_time := runup_time s;
     runup_complete := runup_complete s;
     power_output_low := power_output_low s;
     power_output_high := power_output_high s;
     power_output_negc := power_output_negc s;
     power_slewrate := power_slewrate s;
     load_feedforward := load_feedforward s;
     pwm_min := pwm_min s; pwm_max := pwm_max s; pwm_rev := pwm_rev s;
     gov_enabled := gov_enabled s;
     governor_rpm_setpoint := governor_rpm_setpoint s;
     governor_rpm_deadband := governor_rpm_deadband s;
     rpm_feedback := rpm_feedback s; pid_rotor_gov := pid_rotor_gov s |}.

Definition with_control_output (v : float) (s : AP_MotorsHeli_RSC) :=
  {| last_update_us := last_update_us s; control_mode := control_mode s;
     critical_speed := critical_speed s; idle_output := idle_output s;
     desired_speed := desired_speed s; control_output := v;
     rotor_ramp_output := rotor_ramp_output s;
     rotor_runup_output := rotor_runup_output s;
     ramp_time := ramp_time s; runup_time := runup_time s;
     runup_complete := runup_complete s;
     power_output_low := power_output_low s;
     power_output_high := power_output_high s;
     power_output_negc := power_output_negc s;
     power_slewrate := power_slewrate s;
     load_feedforward := load_feedforward s;
     pwm_min := pwm_min s; pwm_max := pwm_max s; pwm_rev := pwm_rev s;
     gov_enabled := gov_enabled s;
     governor_rpm_setpoint := governor_rpm_setpoint s;
     governor_rpm_deadband := governor_rpm_deadband s;
     rpm_feedback := rpm_feedback s; pid_rotor_gov := pid_rotor_gov s |}.

Definition with_rotor_ramp_output (v : float) (s : AP_MotorsHeli_RSC) :=
  {| last_update_us := last_update_us s; control_mode := control_mode s;
     critical_speed := critical_speed s; idle_output := idle_output s;
     desired_speed := desired_speed s; control_output := control_output s;
     rotor_ramp_output := v;
     rotor_runup_output := rotor_runup_output s;
     ramp_time := ramp_time s; runup_time := runup_time s;
     runup_complete := runup_complete s;
     power_output_low := power_output_low s;
     power_output_high := power_output_high s;
     power_output_negc := power_output_negc s;
     power_slewrate := power_slewrate s;
     load_feedforward := load_feedforward s;
     pwm_min := pwm_min s; pwm_max := pwm_max s; pwm_rev := pwm_rev s;
     gov_enabled := gov_enabled s;
     governor_rpm_setpoint := governor_rpm_setpoint s;
     governor_rpm_deadband := governor_rpm_deadband s;
     rpm_feedback := rpm_feedback s; pid_rotor_gov := pid_rotor_gov s |}.

Definition with_rotor_runup_output (v : float) (s : AP_MotorsHeli_RSC) :=
  {| last_update_us := last_update_us s; control_mode := control_mode s;
     critical_speed := critical_speed s; idle_output := idle_output s;
     desired_speed := desired_speed s; control_output := control_output s;
     rotor_ramp_output := rotor_ramp_output s;
     rotor_runup_output := v;
     ramp_time := ramp_time s; runup_time := runup_time s;
     runup_complete := runup_complete s;
     power_output_low := power_output_low s;
     power_output_high := power_output_high s;
     power_output_negc := power_output_negc s;
     power_slewrate := power_slewrate s;
     load_feedforward := load_feedforward s;
     pwm_min := pwm_min s; pwm_max := pwm_max s; pwm_rev := pwm_rev s;
     gov_enabled := gov_enabled s;
     governor_rpm_setpoint := governor_rpm_setpoint s;
     governor_rpm_deadband := governor_rpm_deadband s;
     rpm_feedback := rpm_feedback s; pid_rotor_gov := pid_rotor_gov s |}.

Definition with_ramp_time (v : Z) (s : AP_MotorsHeli_RSC) :=
  {| last_update_us := last_update_us s; control_mode := control_mode s;
     critical_speed := critical_speed s; idle_output := idle_output s;
     desired_speed := desired_speed s; control_output := control_output s;
     rotor_ramp_output := rotor_ramp_output s;
     rotor_runup_output := rotor_runup_output s;
     ramp_time := v; runup_time := runup_time s;
     runup_complete := runup_complete s;
     power_output_low := power_output_low s;
     power_output_high := power_output_high s;
     power_output_negc := power_output_negc s;
     power_slewrate := power_slewrate s;
     load_feedforward := load_feedforward s;
     pwm_min := pwm_min s; pwm_max := pwm_max s; pwm_rev := pwm_rev s;
     gov_enabled := gov_enabled s;
     governor_rpm_setpoint := governor_rpm_setpoint s;
     governor_rpm_deadband := governor_rpm_deadband s;
     rpm_feedback := rpm_feedback s; pid_rotor_gov := pid_rotor_gov s |}.

Definition with_runup_time (v : Z) (s : AP_MotorsHeli_RSC) :=
  {| last_update_us := last_update_us s; control_mode := control_mode s;
     critical_speed := critical_speed s; idle_output := idle_output s;
     desired_speed := desired_speed s; control_output := control_output s;
     rotor_ramp_output := rotor_ramp_output s;
     rotor_runup_output := rotor_runup_output s;
     ramp_time := ramp_time s; runup_time := v;
     runup_complete := runup_complete s;
     power_output_low := power_output_low s;
     power_output_high := power_output_high s;
     power_output_negc := power_output_negc s;
     power_slewrate := power_slewrate s;
     load_feedforward := load_feedforward s;
     pwm_min := pwm_min s; pwm_max := pwm_max s; pwm_rev := pwm_rev s;
     gov_enabled := gov_enabled s;
     governor_rpm_setpoint := governor_rpm_setpoint s;
     governor_rpm_deadband := governor_rpm_deadband s;
     rpm_feedback := rpm_feedback s; pid_rotor_gov := pid_rotor_gov s |}.

Definition with_runup_complete (v : bool) (s : AP_MotorsHeli_RSC) :=
  {| last_update_us := last_update_us s; control_mode := control_mode s;
     critical_speed := critical_speed s; idle_output := idle_output s;
     desired_speed := desired_speed s; control_output := control_output s;
     rotor_ramp_output := rotor_ramp_output s;
     rotor_runup_output := rotor_runup_output s;
     ramp_time := ramp_time s; runup_time := runup_time s;
     runup_complete := v;
     power_output_low := power_output_low s;
     power_output_high := power_output_high s;
     power_output_negc := power_output_negc s;
     power_slewrate := power_slewrate s;
     load_feedforward := load_feedforward s;
     pwm_min := pwm_min s; pwm_max := pwm_max s; pwm_rev := pwm_rev s;
     gov_enabled := gov_enabled s;
     governor_rpm_setpoint := governor_rpm_setpoint s;
     governor_rpm_deadband := governor_rpm_deadband s;
     rpm_feedback := rpm_feedback s; pid_rotor_gov := pid_rotor_gov s |}.

Definition with_pid_rotor_gov (v : option PID) (s : AP_MotorsHeli_RSC) :=
  {| last_update_us := last_update_us s; control_mode := control_mode s;
     critical_speed := critical_speed s; idle_output := idle_output s;
     desired_speed := desired_speed s; control_output := control_output s;
     rotor_ramp_output := rotor_ramp_output s;
     rotor_runup_output := rotor_runup_output s;
     ramp_time := ramp_time s; runup_time := runup_time s;
     runup_complete := runup_complete s;
     power_output_low := power_output_low s;
     power_output_high := power_output_high s;
     power_output_negc := power_output_negc s;
     power_slewrate := power_slewrate s;
     load_feedforward := load_feedforward s;
     pwm_min := pwm_min s; pwm_max := pwm_max s; pwm_rev := pwm_rev s;
     gov_enabled := gov_enabled s;
     governor_rpm_setpoint := governor_rpm_setpoint s;
     governor_rpm_deadband := governor_rpm_deadband s;
     rpm_feedback := rpm_feedback s; pid_rotor_gov := v |}.

(** ** Setters *)

Definition set_power_output_range
    (power_low power_high power_negc : float) (slewrate : Z)
    (s : AP_MotorsHeli_RSC) : AP_MotorsHeli_RSC :=
  {| last_update_us := last_update_us s; control_mode := control_mode s;
     critical_speed := critical_speed s; idle_output := idle_output s;
     desired_speed := desired_speed s; control_output := control_output s;
     rotor_ramp_output := rotor_ramp_output s;
     rotor_runup_output := rotor_runup_output s;
     ramp_time := ramp_time s; runup_time := runup_time s;
     runup_complete := runup_complete s;
     power_output_low := power_low;
     power_output_high := power_high;
     power_output_negc := power_negc;
     power_slewrate := slewrate;
     load_feedforward := load_feedforward s;
     pwm_min := pwm_min s; pwm_max := pwm_max s; pwm_rev := pwm_rev s;
     gov_enabled := gov_enabled s;
     governor_rpm_setpoint := governor_rpm_setpoint s;
     governor_rpm_deadband := governor_rpm_deadband s;
     rpm_feedback := rpm_feedback s; pid_rotor_gov := pid_rotor_gov s |}.

Definition set_gov_enable
    (enabled : bool) (rpm deadband : Z) (feedback : float)
    (s : AP_MotorsHeli_RSC) : AP_MotorsHeli_RSC :=
  {| last_update_us := last_update_us s; control_mode := control_mode s;
     critical_speed := critical_speed s; idle_output := idle_output s;
     desired_speed := desired_speed s; control_output := control_output s;
     rotor_ramp_output := rotor_ramp_output s;
     rotor_runup_output := rotor_runup_output s;
     ramp_time := ramp_time s; runup_time := runup_time s;
     runup_complete := runup_complete s;
     power_output_low := power_output_low s;
     power_output_high := power_output_high s;
     power_output_negc := power_output_negc s;
     power_slewrate := power_slewrate s;
     load_feedforward := load_feedforward s;
     pwm_min := pwm_min s; pwm_max := pwm_max s; pwm_rev := pwm_rev s;
     gov_enabled := enabled;
     governor_rpm_setpoint := rpm;
     governor_rpm_deadband := deadband;
     rpm_feedback := feedback; pid_rotor_gov := pid_rotor_gov s |}.

(** ** Ramp and run-up estimators *)

(** The "sanity check" at the head of [update_rotor_ramp]. *)
Definition sanity_check_ramp_time (s : AP_MotorsHeli_RSC) : AP_MotorsHeli_RSC :=
  if (ramp_time s <=? 0)%Z then with_ramp_time 1 s else s.

Definition update_rotor_ramp (rotor_ramp_input dt : float)
    (s : AP_MotorsHeli_RSC) : AP_MotorsHeli_RSC :=
  let s := sanity_check_ramp_time s in
  if flt (rotor_ramp_output s) rotor_ramp_input then
    let s :=
      if flt (rotor_ramp_output s) (rotor_runup_output s)
      then with_rotor_ramp_output (rotor_runup_output s) s
      else s in
    let s :=
      with_rotor_ramp_output
        (rotor_ramp_output s + dt / inject_Z (ramp_time s)) s in
    if flt rotor_ramp_input (rotor_ramp_output s)
    then with_rotor_ramp_output rotor_ramp_input s
    else s
  else
    with_rotor_ramp_output rotor_ramp_input s.

Definition get_rotor_speed (s : AP_MotorsHeli_RSC) : float :=
  rotor_runup_output s.

(** The two "sanity checks" at the head of [update_rotor_runup]. *)
Definition sanity_check_runup_time (s : AP_MotorsHeli_RSC) : AP_MotorsHeli_RSC :=
  let s :=
    if (runup_time s <? ramp_time s)%Z then with_runup_time (ramp_time s) s
    else s in
  if (runup_time s <=? 0)%Z then with_runup_time 1 s else s.

(** The slewing part of [update_rotor_runup]. *)
Definition slew_rotor_runup (dt : float)
    (s : AP_MotorsHeli_RSC) : AP_MotorsHeli_RSC :=
  let runup_increment := dt / inject_Z (runup_time s) in
  if flt (rotor_runup_output s) (rotor_ramp_output s) then
    let s :=
      with_rotor_runup_output (rotor_runup_output s + runup_increment) s in
    if flt (rotor_ramp_output s) (rotor_runup_output s)
    then with_rotor_runup_output (rotor_ramp_output s) s
    else s
  else
    let s :=
      with_rotor_runup_output (rotor_runup_output s - runup_increment) s in
    if flt (rotor_runup_output s) (rotor_ramp_output s)
    then with_rotor_runup_output (rotor_ramp_output s) s
    else s.

(** The run-up complete flag part of [update_rotor_runup]. *)
Definition update_runup_complete (s : AP_MotorsHeli_RSC) : AP_MotorsHeli_RSC :=
  if mode_is_disabled (control_mode s) then with_runup_complete true s
  else
    let s :=
      if negb (runup_complete s)
         && fle 1 (rotor_ramp_output s) && fle 1 (rotor_runup_output s)
      then with_runup_complete true s
      else s in
    if runup_complete s && fle (get_rotor_speed s) (critical_speed s)
    then with_runup_complete false s
    else s.

Definition update_rotor_runup (dt : float)
    (s : AP_MotorsHeli_RSC) : AP_MotorsHeli_RSC :=
  update_runup_complete (slew_rotor_runup dt (sanity_check_runup_time s)).

(** ** Power strategy calculators *)

Definition calc_open_loop_power_control_output
    (s : AP_MotorsHeli_RSC) : float :=
  if fle 0 (load_feedforward s) then
    let range := power_output_high s - power_output_low s in
    idle_output s
    + rotor_ramp_output s
      * ((power_output_low s - idle_output s) + range * load_feedforward s)
  else
    let range := power_output_negc s - power_output_low s in
    idle_output s
    + rotor_ramp_output s
      * ((power_output_low s - idle_output s) - range * load_feedforward s).

(** Returns the control output and the state, in which only the PID
    controller may have changed. *)
Definition calc_closed_loop_power_control_output
    (s : AP_MotorsHeli_RSC) : float * AP_MotorsHeli_RSC :=
  match pid_rotor_gov s with
  | None => (calc_open_loop_power_control_output s, s)
  | Some pid =>
      let target_rpm :=
        rotor_ramp_output s * inject_Z (governor_rpm_setpoint s) in
      let pid_input := (target_rpm - rpm_feedback s) / 100 in
      let '(pid_output, pid) :=
        if gov_enabled s then get_pid (set_input_filter_all pid_input pid)
        else (0, set_input_filter_all 0 pid) in
      (constrain_float pid_output 0 1, with_pid_rotor_gov (Some pid) s)
  end.

(** ** PWM mapper *)

Definition write_rsc (servo_out : float) (s : AP_MotorsHeli_RSC) : srv_effect :=
  if mode_is_disabled (control_mode s) then NoOutput
  else
    match float_to_uint16 (servo_out * inject_Z (pwm_max s - pwm_min s)) with
    | None => UndefinedConversion
    | Some pwm =>
        if (0 <=? pwm_rev s)%Z
        then SetOutputPwm (int_to_uint16 (pwm_min s + pwm))
        else SetOutputPwm (int_to_uint16 (pwm_max s - pwm))
    end.

(** ** Tick orchestrator *)

(** Elapsed time of a tick; [now] is the value of AP_HAL::micros64().  The
    difference is taken on unsigned 64-bit integers. *)
Definition tick_dt (now : Z) (s : AP_MotorsHeli_RSC) : float :=
  if (last_update_us s =? 0)%Z then 1 # 1000
  else (1 # 1000000) * inject_Z ((now - last_update_us s) mod 2 ^ 64).

(** Speed passthrough: ramp-slewed value between idle and desired speed. *)
Definition passthrough_output (s : AP_MotorsHeli_RSC) : float :=
  idle_output s + rotor_ramp_output s * (desired_speed s - idle_output s).

(** The [switch (state)] of [output]. *)
Definition dispatch_state (state : RotorControlState)
    (last_control_output dt : float)
    (s : AP_MotorsHeli_RSC) : AP_MotorsHeli_RSC :=
  match state with
  | ROTOR_CONTROL_STOP =>
      let s := update_rotor_ramp 0 dt s in
      with_control_output 0 s
  | ROTOR_CONTROL_IDLE =>
      let s := update_rotor_ramp 0 dt s in
      with_control_output (idle_output s) s
  | ROTOR_CONTROL_ACTIVE =>
      let s := update_rotor_ramp 1 dt s in
      match control_mode s with
      | ROTOR_CONTROL_MODE_SPEED_PASSTHROUGH
      | ROTOR_CONTROL_MODE_SPEED_SETPOINT =>
          with_control_output (passthrough_output s) s
      | ROTOR_CONTROL_MODE_OPEN_LOOP_POWER_OUTPUT =>
          with_control_output (calc_open_loop_power_control_output s) s
      | ROTOR_CONTROL_MODE_GOVERNOR =>
          if negb (gov_enabled s) then
            with_control_output (passthrough_output s) s
          else if flt (fabs (inject_Z (governor_rpm_setpoint s)
                             - rpm_feedback s))
                      (inject_Z (governor_rpm_deadband s)) then
            with_control_output last_control_output s
          else
            let '(out, s) := calc_closed_loop_power_control_output s in
            with_control_output out s
      | ROTOR_CONTROL_MODE_DISABLED => s
      end
  end.

(** The slew-rate stage of [output]. *)
Definition slew_control_output (last_control_output dt : float)
    (s : AP_MotorsHeli_RSC) : AP_MotorsHeli_RSC :=
  if (0 <? power_slewrate s)%Z then
    let max_delta := dt * inject_Z (power_slewrate s) * (1 # 100) in
    with_control_output
      (constrain_float (control_output s)
         (last_control_output - max_delta) (last_control_output + max_delta))
      s
  else s.

(** State entering the run-up estimator within a tick. *)
Definition before_runup (state : RotorControlState) (now : Z)
    (s : AP_MotorsHeli_RSC) : AP_MotorsHeli_RSC :=
  dispatch_state state (control_output s) (tick_dt now s)
    (with_last_update_us now s).

Definition output (state : RotorControlState) (now : Z)
    (s : AP_MotorsHeli_RSC) : AP_MotorsHeli_RSC * srv_effect :=
  let last_control_output := control_output s in
  let dt := tick_dt now s in
  let s := before_runup state now s in
  let s := update_rotor_runup dt s in
  let s := slew_control_output last_control_output dt s in
  (s, write_rsc (control_output s) s).

(** ** Call sequences *)

Inductive rsc_call : Type :=
| Call_output (state : RotorControlState) (now : Z)
| Call_set_power_output_range
    (power_low power_high power_negc : float) (slewrate : Z)
| Call_set_gov_enable (enabled : bool) (rpm deadband : Z) (feedback : float).

Definition do_call (c : rsc_call) (s : AP_MotorsHeli_RSC) : AP_MotorsHeli_RSC :=
  match c with
  | Call_output state now => fst (output state now s)
  | Call_set_power_output_range l h n r => set_power_output_range l h n r s
  | Call_set_gov_enable e r d f => set_gov_enable e r d f s
  end.

Fixpoint run (cs : list rsc_call) (s : AP_MotorsHeli_RSC) : AP_MotorsHeli_RSC :=
  match cs with
  | [] => s
  | c :: cs' => run cs' (do_call c s)
  end.

(** Every tick of the call sequence ends with the rotor speed estimate above
    the critical speed. *)
Fixpoint ticks_above_critical (cs : list rsc_call) (s : AP_MotorsHeli_RSC)
    : Prop :=
  match cs with
  | [] => True
  | c :: cs' =>
      let s' := do_call c s in
      match c with
      | Call_output _ _ => critical_speed s' < rotor_runup_output s'
      | _ => True
      end
      /\ ticks_above_critical cs' s'
  end.

(** [n] ticks with command [state], [delta] microseconds apart, the first one
    [delta] after [t0]. *)
Fixpoint periodic_ticks (state : RotorControlState) (t0 delta : Z) (n : nat)
    : list rsc_call :=
  match n with
  | O => []
  | S n' =>
      Call_output state (t0 + delta)
      :: periodic_ticks state (t0 + delta) delta n'
  end.

(** Target the ramp estimator is driven to by each command. *)
Definition ramp_target (state : RotorControlState) : float :=
  match state with
  | ROTOR_CONTROL_ACTIVE => 1
  | _ => 0
  end.

(** ** Ranges used in the statements *)

Definition in_unit (x : float) : Prop := 0 <= x <= 1.


(** The PWM limits are ordered, non-negative 16-bit signed values. *)
Definition pwm_limits_ordered (s : AP_MotorsHeli_RSC) : Prop :=
  (0 <= pwm_min s <= pwm_max s)%Z /\ (pwm_max s <= 32767)%Z.


End Controller.

Arguments AP_MotorsHeli_RSC PID : clear implicits.

(** ** Concrete controllers

    A controller with a 2 s ramp and run-up time, idle output 0.1, desired
    speed 1 and PWM limits 1000 and 2000 us; the arguments are the fields the
    examples vary. *)
Definition example_rsc
    (last_us : Z) (mode : RotorControlMode) (critical idle : float)
    (control ramp runup : float) (complete : bool) (slewrate : Z)
    (rev : Z) (gov : bool) (feedback : float) (pid : option P_controller)
    : AP_MotorsHeli_RSC P_controller :=
  {| last_update_us := last_us; control_mode := mode;
     critical_speed := critical; idle_output := idle;
     desired_speed := 1; control_output := control;
     rotor_ramp_output := ramp; rotor_runup_output := runup;
     ramp_time := 2; runup_time := 2; runup_complete := complete;
     power_output_low := 1 # 5; power_output_high := 7 # 10;
     power_output_negc := 3 # 10; power_slewrate := slewrate;
     load_feedforward := 0;
     pwm_min := 1000; pwm_max := 2000; pwm_rev := rev;
     gov_enabled := gov;
     governor_rpm_setpoint := 1500; governor_rpm_deadband := 50;
     rpm_feedback := feedback; pid_rotor_gov := pid |}.

(** At rest in speed-passthrough mode, before the first tick. *)
Definition rsc_at_rest : AP_MotorsHeli_RSC P_controller :=
  example_rsc 0 ROTOR_CONTROL_MODE_SPEED_PASSTHROUGH (1 # 2) (1 # 10)
    0 0 0 false 0 1 false 0 None.


(** At rest, the previous tick at 1000 us. *)
Definition rsc_started : AP_MotorsHeli_RSC P_controller :=
  example_rsc 1000 ROTOR_CONTROL_MODE_SPEED_PASSTHROUGH (1 # 2) (1 # 10)
    0 0 0 false 0 1 false 0 None.

(** At full speed with run-up complete. *)
Definition rsc_full_speed : AP_MotorsHeli_RSC P_controller :=
  example_rsc 1000 ROTOR_CONTROL_MODE_SPEED_PASSTHROUGH (1 # 2) (1 # 10)
    1 1 1 true 0 1 false 0 None.

(** At full output before the first tick, slew rate 100 percent per
    second. *)
Definition rsc_full_output_slewed : AP_MotorsHeli_RSC P_controller :=
  example_rsc 0 ROTOR_CONTROL_MODE_SPEED_PASSTHROUGH (1 # 2) (1 # 10)
    1 1 1 true 100 1 false 0 None.

(** Half-way up the ramp on a reversed channel. *)
Definition rsc_reversed : AP_MotorsHeli_RSC P_controller :=
  example_rsc 1000 ROTOR_CONTROL_MODE_SPEED_PASSTHROUGH (1 # 2) (1 # 10)
    (1 # 2) (1 # 2) (1 # 4) false 0 (-1) false 0 None.


(** Governor engaged, the feedback 300 rpm below the setpoint. *)
Definition rsc_governor_low_rpm : AP_MotorsHeli_RSC P_controller :=
  example_rsc 1000 ROTOR_CONTROL_MODE_GOVERNOR (1 # 2) (1 # 10)
    (3 # 5) 1 1 true 100 1 true 1200 (Some {| kP := 1 # 10; p_input := 0 |}).



(** Ramp and run-up at full speed with a critical speed of 1. *)
Definition rsc_critical_1 : AP_MotorsHeli_RSC P_controller :=
  example_rsc 1000 ROTOR_CONTROL_MODE_SPEED_PASSTHROUGH 1 (1 # 10)
    1 1 1 false 0 1 false 0 None.

(** Run-up complete, ramp at zero, the run-up output just above the critical
    speed. *)
Definition rsc_slowing : AP_MotorsHeli_RSC P_controller :=
  example_rsc 1000 ROTOR_CONTROL_MODE_SPEED_PASSTHROUGH (1 # 2) (1 # 10)
    (1 # 10) 0 (13 # 25) true 0 1 false 0 None.

(** Disabled mode with a slew rate configured. *)
Definition rsc_disabled : AP_MotorsHeli_RSC P_controller :=
  example_rsc 1000 ROTOR_CONTROL_MODE_DISABLED (1 # 2) (1 # 10)
    (3 # 10) 0 0 false 100 1 false 0 None.

(** ** Output channel trace *)

(** What each call of a sequence does to the output channel, in order; the
    setters do not reach it. *)
Fixpoint channel_trace {PID : Type} `{AC_PID PID}
    (cs : list rsc_call) (s : AP_MotorsHeli_RSC PID) : list srv_effect :=
  match cs with
  | [] => []
  | Call_output state now :: cs' =>
      snd (output state now s)
      :: channel_trace cs' (fst (output state now s))
  | c :: cs' => channel_trace cs' (do_call c s)
  end.

Definition is_output_call (c : rsc_call) : bool :=
  match c with
  | Call_output _ _ => true
  | _ => false
  end.

(** ** More concrete controllers *)

(** Open-loop power mode with idle output 0.1 and low power level 0.2, no
    slew-rate limit; the arguments are the ramp output, the high and
    negative-collective power levels and the load. *)
Definition example_open_loop (ramp high negc load : float)
    : AP_MotorsHeli_RSC P_controller :=
  {| last_update_us := 1000;
     control_mode := ROTOR_CONTROL_MODE_OPEN_LOOP_POWER_OUTPUT;
     critical_speed := 1 # 2; idle_output := 1 # 10;
     desired_speed := 1; control_output := 1 # 10;
     rotor_ramp_output := ramp; rotor_runup_output := ramp;
     ramp_time := 2; runup_time := 2; runup_complete := false;
     power_output_low := 1 # 5; power_output_high := high;
     power_output_negc := negc; power_slewrate := 0;
     load_feedforward := load;
     pwm_min := 1000; pwm_max := 2000; pwm_rev := 1;
     gov_enabled := false;
     governor_rpm_setpoint := 1500; governor_rpm_deadband := 50;
     rpm_feedback := 0; pid_rotor_gov := None |}.

(** Ramp output back at zero while the rotor is still estimated at 0.6 of
    full speed. *)
Definition rsc_catch_up : AP_MotorsHeli_RSC P_controller :=
  example_rsc 1000 ROTOR_CONTROL_MODE_SPEED_PASSTHROUGH (1 # 2) (1 # 10)
    (1 # 10) 0 (3 # 5) true 0 1 false 0 None.

(** Ramp and run-up times out of order: ramp_time 0, runup_time -3. *)
Definition rsc_bad_times : AP_MotorsHeli_RSC P_controller :=
  {| last_update_us := 1000;
     control_mode := ROTOR_CONTROL_MODE_SPEED_PASSTHROUGH;
     critical_speed := 1 # 2; idle_output := 1 # 10;
     desired_speed := 1; control_output := 0;
     rotor_ramp_output := 0; rotor_runup_output := 0;
     ramp_time := 0; runup_time := -3; runup_complete := false;
     power_output_low := 1 # 5; power_output_high := 7 # 10;
     power_output_negc := 3 # 10; power_slewrate := 0;
     load_feedforward := 0;
     pwm_min := 1000; pwm_max := 2000; pwm_rev := 1;
     gov_enabled := false;
     governor_rpm_setpoint := 1500; governor_rpm_deadband := 50;
     rpm_feedback := 0; pid_rotor_gov := None |}.

(** A short flight: two ticks, a change of the governor settings, a change
    of the power range, two more ticks. *)
Definition example_calls : list rsc_call :=
  [Call_output ROTOR_CONTROL_IDLE 101000;
   Call_output ROTOR_CONTROL_ACTIVE 201000;
   Call_set_gov_enable true 1500 50 1400;
   Call_set_power_output_range (1 # 4) (4 # 5) (1 # 2) 50;
   Call_output ROTOR_CONTROL_ACTIVE 301000;
   Call_output ROTOR_CONTROL_STOP 401000].

(** ** The ramp accumulation *)


(** ** Binary32 replay of the estimators

    The same statements of [output], [update_rotor_ramp] and
    [update_rotor_runup] with the C++ [float] as IEEE 754 binary32 (24-bit
    significand, round to nearest even), for the places where the rounding
    of the accumulated sums matters.  Only the fields the two estimators
    read and write are kept. *)
Module Binary32.

Definition float32 := spec_float.

Definition of_Z (z : Z) : float32 := binary_normalize 24 128 z 0 false.
Definition add : float32 -> float32 -> float32 := SFadd 24 128.
Definition sub : float32 -> float32 -> float32 := SFsub 24 128.
Definition mul : float32 -> float32 -> float32 := SFmul 24 128.
Definition div : float32 -> float32 -> float32 := SFdiv 24 128.
Definition lt : float32 -> float32 -> bool := SFltb.

(** The literals 1.0e-6f and 0.001f: the binary32 values nearest to 10^-6
    and 10^-3. *)
Definition lit_1e_6 : float32 := div (of_Z 1) (of_Z 1000000).
Definition lit_0_001 : float32 := div (of_Z 1) (of_Z 1000).


Record estimators : Type := {
  last_update_us : Z;
  rotor_ramp_output : float32;
  rotor_runup_output : float32;
  ramp_time : Z;
  runup_time : Z
}.

Definition tick_dt (now : Z) (s : estimators) : float32 :=
  if (last_update_us s =? 0)%Z then lit_0_001
  else mul lit_1e_6 (of_Z ((now - last_update_us s) mod 2 ^ 64)).

Definition update_rotor_ramp (rotor_ramp_input dt : float32)
    (s : estimators) : estimators :=
  let ramp_time' := if (ramp_time s <=? 0)%Z then 1%Z else ramp_time s in
  let ramp :=
    if lt (rotor_ramp_output s) rotor_ramp_input then
      let r :=
        if lt (rotor_ramp_output s) (rotor_runup_output s)
        then rotor_runup_output s
        else rotor_ramp_output s in
      let r := add r (div dt (of_Z ramp_time')) in
      if lt rotor_ramp_input r then rotor_ramp_input else r
    else rotor_ramp_input in
  {| last_update_us := last_update_us s;
     rotor_ramp_output := ramp;
     rotor_runup_output := rotor_runup_output s;
     ramp_time := ramp_time'; runup_time := runup_time s |}.

Definition update_rotor_runup (dt : float32) (s : estimators) : estimators :=
  let runup_time' :=
    if (runup_time s <? ramp_time s)%Z then ramp_time s else runup_time s in
  let runup_time' := if (runup_time' <=? 0)%Z then 1%Z else runup_time' in
  let runup_increment := div dt (of_Z runup_time') in
  let runup :=
    if lt (rotor_runup_output s) (rotor_ramp_output s) then
      let u := add (rotor_runup_output s) runup_increment in
      if lt (rotor_ramp_output s) u then rotor_ramp_output s else u
    else
      let u := sub (rotor_runup_output s) runup_increment in
      if lt u (rotor_ramp_output s) then rotor_ramp_output s else u in
  {| last_update_us := last_update_us s;
     rotor_ramp_output := rotor_ramp_output s;
     rotor_runup_output := runup;
     ramp_time := ramp_time s; runup_time := runup_time' |}.




End Binary32.

(** ** Basic facts *)

Lemma flt_spec (a b : float) : BoolSpec (a < b) (b <= a) (flt a b).
Proof.
  unfold flt. destruct (Qle_bool b a) eqn:E; simpl; constructor.
  - now apply Qle_bool_iff.
  - apply Qnot_le_lt. intro L. apply Qle_bool_iff in L. congruence.
Qed.

Lemma fle_spec (a b : float) : BoolSpec (a <= b) (b < a) (fle a b).
Proof.
  unfold fle. destruct (Qle_bool a b) eqn:E; constructor.
  - now apply Qle_bool_iff.
  - apply Qnot_le_lt. intro L. apply Qle_bool_iff in L. congruence.
Qed.

Lemma flt_true_iff (a b : float) : flt a b = true <-> a < b.
Proof. destruct (flt_spec a b); split; intros; try easy; lra. Qed.

Lemma flt_false_iff (a b : float) : flt a b = false <-> b <= a.
Proof. destruct (flt_spec a b); split; intros; try easy; lra. Qed.

Lemma fle_true_iff (a b : float) : fle a b = true <-> a <= b.
Proof. destruct (fle_spec a b); split; intros; try easy; lra. Qed.

Lemma fle_false_iff (a b : float) : fle a b = false <-> b < a.
Proof. destruct (fle_spec a b); split; intros; try easy; lra. Qed.

(** Case analysis on the innermost test of the goal. *)
Ltac split_test :=
  match goal with
  | |- context [if ?c then _ else _] =>
      lazymatch c with
      | context [if _ then _ else _] => fail
      | _ => destruct c eqn:?
      end
  end; simpl.

Ltac prop_tests :=
  repeat match goal with
  | T : flt _ _ = true |- _ => apply flt_true_iff in T
  | T : flt _ _ = false |- _ => apply flt_false_iff in T
  | T : fle _ _ = true |- _ => apply fle_true_iff in T
  | T : fle _ _ = false |- _ => apply fle_false_iff in T
  | T : (_ <=? _)%Z = true |- _ => apply Z.leb_le in T
  | T : (_ <=? _)%Z = false |- _ => apply Z.leb_gt in T
  | T : (_ <? _)%Z = true |- _ => apply Z.ltb_lt in T
  | T : (_ <? _)%Z = false |- _ => apply Z.ltb_ge in T
  end.

Ltac split_tests := simpl; repeat split_test; prop_tests.

(** Reduction of field accesses only. *)
Ltac fields :=
  cbn [last_update_us control_mode critical_speed idle_output desired_speed
       control_output rotor_ramp_output rotor_runup_output ramp_time
       runup_time runup_complete power_output_low power_output_high
       power_output_negc power_slewrate load_feedforward pwm_min pwm_max
       pwm_rev gov_enabled governor_rpm_setpoint governor_rpm_deadband
       rpm_feedback pid_rotor_gov
       with_last_update_us with_control_output with_rotor_ramp_output
       with_rotor_runup_output with_ramp_time with_runup_time
       with_runup_complete with_pid_rotor_gov
       set_power_output_range set_gov_enable].

Lemma inject_Z_pos (t : Z) : (1 <= t)%Z -> 0 < inject_Z t.
Proof. intro L. unfold Qlt. simpl. lia. Qed.

Lemma div_time_nonneg (dt : float) (t : Z) :
  0 <= dt -> (1 <= t)%Z -> 0 <= dt / inject_Z t.
Proof.
  intros D T. apply Qle_shift_div_l.
  - now apply inject_Z_pos.
  - lra.
Qed.

Lemma constrain_float_between (amt low high : float) :
  low <= high -> low <= constrain_float amt low high <= high.
Proof.
  intros L. unfold constrain_float.
  destruct (flt_spec amt low); [lra|].
  destruct (flt_spec high amt); lra.
Qed.

Lemma constrain_float_inside (amt low high : float) :
  low <= amt -> amt <= high -> constrain_float amt low high = amt.
Proof.
  intros L U. unfold constrain_float.
  destruct (flt_spec amt low); [lra|].
  destruct (flt_spec high amt); [lra|reflexivity].
Qed.

Section Facts.

Context {PID : Type} `{AC_PID PID}.

Implicit Types s : AP_MotorsHeli_RSC PID.

Lemma tick_dt_nonneg (now : Z) s : 0 <= tick_dt now s.
Proof.
  unfold tick_dt. destruct (last_update_us s =? 0)%Z.
  - lra.
  - assert (0 <= inject_Z ((now - last_update_us s) mod 2 ^ 64)).
    { change 0 with (inject_Z 0). rewrite <- Zle_Qle.
      apply Z.mod_pos_bound. lia. }
    lra.
Qed.

(** *** Ramp estimator *)

Lemma sanity_check_ramp_time_ge_1 s :
  (1 <= ramp_time (sanity_check_ramp_time s))%Z.
Proof. unfold sanity_check_ramp_time. split_tests; lia. Qed.

Lemma update_rotor_ramp_le_target (tgt dt : float) s :
  rotor_ramp_output (update_rotor_ramp tgt dt s) <= tgt.
Proof.
  unfold update_rotor_ramp, sanity_check_ramp_time.
  split_tests; simpl in *; lra.
Qed.

Lemma update_rotor_ramp_ge_0 (tgt dt : float) s :
  0 <= tgt -> 0 <= dt -> 0 <= rotor_ramp_output s ->
  0 <= rotor_ramp_output (update_rotor_ramp tgt dt s).
Proof.
  intros T D R.
  pose proof (div_time_nonneg dt _ D (sanity_check_ramp_time_ge_1 s)) as I.
  revert I.
  unfold update_rotor_ramp, sanity_check_ramp_time.
  split_tests; simpl in *; intros; try lra.
Qed.

Lemma update_rotor_ramp_eq (tgt dt : float) s :
  update_rotor_ramp tgt dt s
  = with_rotor_ramp_output (rotor_ramp_output (update_rotor_ramp tgt dt s))
      (with_ramp_time (ramp_time (sanity_check_ramp_time s)) s).
Proof.
  unfold update_rotor_ramp, sanity_check_ramp_time.
  destruct s; simpl; repeat split_test; reflexivity.
Qed.

(** *** Run-up estimator *)

Lemma sanity_check_runup_time_eq s :
  sanity_check_runup_time s
  = with_runup_time (runup_time (sanity_check_runup_time s)) s.
Proof.
  unfold sanity_check_runup_time.
  destruct s; simpl; repeat split_test; reflexivity.
Qed.

Lemma sanity_check_runup_time_ge s :
  (1 <= runup_time (sanity_check_runup_time s))%Z
  /\ (ramp_time s <= runup_time (sanity_check_runup_time s))%Z.
Proof.
  unfold sanity_check_runup_time. split_tests; simpl in *; lia.
Qed.

Lemma slew_rotor_runup_eq (dt : float) s :
  slew_rotor_runup dt s
  = with_rotor_runup_output (rotor_runup_output (slew_rotor_runup dt s)) s.
Proof.
  unfold slew_rotor_runup.
  destruct s; simpl; repeat split_test; reflexivity.
Qed.

(** The run-up estimate moves toward the ramp output without leaving any
    interval that holds both. *)
Lemma slew_rotor_runup_between (dt lo hi : float) s :
  0 <= dt -> (1 <= runup_time s)%Z ->
  lo <= rotor_ramp_output s <= hi ->
  lo <= rotor_runup_output s <= hi ->
  lo <= rotor_runup_output (slew_rotor_runup dt s) <= hi.
Proof.
  intros D T R U.
  pose proof (div_time_nonneg dt _ D T) as I. revert I.
  unfold slew_rotor_runup.
  split_tests; simpl in *; intros; lra.
Qed.


Lemma update_runup_complete_eq s :
  update_runup_complete s
  = with_runup_complete (runup_complete (update_runup_complete s)) s.
Proof.
  unfold update_runup_complete, get_rotor_speed.
  destruct s; simpl; repeat split_test; reflexivity.
Qed.

(** The flag after the completion logic, in a mode other than disabled. *)
Lemma update_runup_complete_enabled s :
  mode_is_disabled (control_mode s) = false ->
  runup_complete (update_runup_complete s)
  = (runup_complete s
     || fle 1 (rotor_ramp_output s) && fle 1 (rotor_runup_output s))
    && negb (fle (rotor_runup_output s) (critical_speed s)).
Proof.
  intros M. unfold update_runup_complete, get_rotor_speed. rewrite M.
  destruct s as [? ? crit ? ? ? ramp runup ? ? complete ? ? ? ? ? ? ? ? ? ? ? ? ?].
  simpl.
  destruct complete; simpl; destruct (fle 1 ramp); simpl;
    destruct (fle 1 runup); simpl; destruct (fle runup crit); reflexivity.
Qed.

(** The three parts of [update_rotor_runup], field by field. *)
Lemma update_rotor_runup_eq (dt : float) s :
  update_rotor_runup dt s
  = with_runup_complete (runup_complete (update_rotor_runup dt s))
      (with_rotor_runup_output
         (rotor_runup_output (slew_rotor_runup dt (sanity_check_runup_time s)))
         (with_runup_time (runup_time (sanity_check_runup_time s)) s)).
Proof.
  unfold update_rotor_runup.
  etransitivity; [apply update_runup_complete_eq|]. f_equal.
  etransitivity; [apply slew_rotor_runup_eq|]. f_equal.
  apply sanity_check_runup_time_eq.
Qed.

(** *** Power strategy calculators *)

Lemma calc_closed_loop_eq s :
  snd (calc_closed_loop_power_control_output s)
  = with_pid_rotor_gov
      (pid_rotor_gov (snd (calc_closed_loop_power_control_output s))) s.
Proof.
  unfold calc_closed_loop_power_control_output.
  destruct s as [? ? ? ? ? ? ? ? ? ? ? ? ? ? ? ? ? ? ? en ? ? ? [p|]]; simpl.
  - destruct en; [destruct (get_pid _)|]; reflexivity.
  - reflexivity.
Qed.

(** *** Tick orchestrator *)

(** [dispatch_state] runs the ramp estimator and then assigns at most the
    control output and the PID controller. *)
Lemma dispatch_state_eq (state : RotorControlState) (last dt : float) s :
  dispatch_state state last dt s
  = with_control_output (control_output (dispatch_state state last dt s))
      (with_pid_rotor_gov (pid_rotor_gov (dispatch_state state last dt s))
         (update_rotor_ramp (ramp_target state) dt s)).
Proof.
  unfold dispatch_state, ramp_target.
  destruct state; simpl;
    destruct (update_rotor_ramp _ dt s) as
      [? m ? ? ? ? ? ? ? ? ? ? ? ? ? ? ? ? ? en ? ? ? p] eqn:U;
    simpl; try reflexivity.
  destruct m; simpl; try reflexivity.
  destruct en; simpl; try reflexivity.
  split_test; try reflexivity.
  match goal with
  | |- context [calc_closed_loop_power_control_output ?u] =>
      pose proof (calc_closed_loop_eq u) as E;
      destruct (calc_closed_loop_power_control_output u) as [out u']
  end.
  simpl in *. rewrite E. reflexivity.
Qed.

(** *** Slew-rate stage *)

Lemma max_delta_nonneg (dt : float) (rate : Z) :
  0 <= dt -> (0 < rate)%Z -> 0 <= dt * inject_Z rate * (1 # 100).
Proof.
  intros D R. pose proof (inject_Z_pos rate ltac:(lia)) as P.
  assert (0 <= dt * inject_Z rate) by (apply Qmult_le_0_compat; lra).
  lra.
Qed.

Lemma slew_control_output_eq (last dt : float) s :
  slew_control_output last dt s
  = with_control_output (control_output (slew_control_output last dt s)) s.
Proof.
  unfold slew_control_output. destruct s; simpl; split_test; reflexivity.
Qed.

(** The slew stage keeps the control output in any interval that holds both
    the previous and the newly computed value. *)
Lemma slew_control_output_between (last dt lo hi : float) s :
  0 <= dt -> lo <= last <= hi -> lo <= control_output s <= hi ->
  lo <= control_output (slew_control_output last dt s) <= hi.
Proof.
  intros D L C. unfold slew_control_output.
  destruct (Z.ltb_spec 0 (power_slewrate s)) as [P | P]; simpl; [|exact C].
  pose proof (max_delta_nonneg dt _ D P) as M. revert M.
  generalize (dt * inject_Z (power_slewrate s) * (1 # 100)). intros md M.
  unfold constrain_float. split_tests; lra.
Qed.

(** A value equal to the previous one passes the slew stage unchanged. *)
Lemma slew_control_output_hold (last dt : float) s :
  0 <= dt -> control_output s = last ->
  control_output (slew_control_output last dt s) = last.
Proof.
  intros D C. unfold slew_control_output.
  destruct (Z.ltb_spec 0 (power_slewrate s)) as [P | P]; simpl; [|exact C].
  pose proof (max_delta_nonneg dt _ D P) as M.
  rewrite C. apply constrain_float_inside; lra.
Qed.

(** *** Fields after one tick *)

Lemma output_rotor_ramp_output (state : RotorControlState) (now : Z) s :
  rotor_ramp_output (fst (output state now s))
  = rotor_ramp_output
      (update_rotor_ramp (ramp_target state) (tick_dt now s)
         (with_last_update_us now s)).
Proof.
  unfold output, before_runup. simpl.
  rewrite slew_control_output_eq, update_rotor_runup_eq, dispatch_state_eq.
  reflexivity.
Qed.

Lemma before_runup_eq (state : RotorControlState) (now : Z) s :
  before_runup state now s
  = with_control_output (control_output (before_runup state now s))
      (with_pid_rotor_gov (pid_rotor_gov (before_runup state now s))
         (update_rotor_ramp (ramp_target state) (tick_dt now s)
            (with_last_update_us now s))).
Proof. unfold before_runup. apply dispatch_state_eq. Qed.

Lemma output_rotor_runup_output (state : RotorControlState) (now : Z) s :
  rotor_runup_output (fst (output state now s))
  = rotor_runup_output
      (slew_rotor_runup (tick_dt now s)
         (sanity_check_runup_time (before_runup state now s))).
Proof.
  unfold output. simpl.
  rewrite slew_control_output_eq, update_rotor_runup_eq. reflexivity.
Qed.

Lemma output_runup_complete (state : RotorControlState) (now : Z) s :
  runup_complete (fst (output state now s))
  = runup_complete (update_rotor_runup (tick_dt now s)
                      (before_runup state now s)).
Proof.
  unfold output. simpl. rewrite slew_control_output_eq. reflexivity.
Qed.

Lemma output_control_output (state : RotorControlState) (now : Z) s :
  control_output (fst (output state now s))
  = control_output
      (slew_control_output (control_output s) (tick_dt now s)
         (with_control_output (control_output (before_runup state now s)) s)).
Proof.
  unfold output. simpl.
  rewrite update_rotor_runup_eq.
  unfold slew_control_output. simpl.
  assert (E : power_slewrate (before_runup state now s) = power_slewrate s).
  { rewrite before_runup_eq, update_rotor_ramp_eq. reflexivity. }
  rewrite E. destruct (0 <? power_slewrate s)%Z; reflexivity.
Qed.

Lemma slew_rotor_runup_le (dt hi : float) s :
  0 <= dt -> (1 <= runup_time s)%Z ->
  rotor_ramp_output s <= hi -> rotor_runup_output s <= hi ->
  rotor_runup_output (slew_rotor_runup dt s) <= hi.
Proof.
  intros D T R U.
  pose proof (div_time_nonneg dt _ D T) as I. revert I.
  unfold slew_rotor_runup.
  split_tests; simpl in *; intros; lra.
Qed.

Ltac tick_frame :=
  unfold output; simpl;
  rewrite slew_control_output_eq, update_rotor_runup_eq, before_runup_eq,
    update_rotor_ramp_eq;
  reflexivity.

(** A tick stores the time stamp and leaves the configuration alone. *)
Lemma output_last_update_us (state : RotorControlState) (now : Z) s :
  last_update_us (fst (output state now s)) = now.
Proof. tick_frame. Qed.

Lemma output_control_mode (state : RotorControlState) (now : Z) s :
  control_mode (fst (output state now s)) = control_mode s.
Proof. tick_frame. Qed.

Lemma output_critical_speed (state : RotorControlState) (now : Z) s :
  critical_speed (fst (output state now s)) = critical_speed s.
Proof. tick_frame. Qed.


Lemma output_ramp_time (state : RotorControlState) (now : Z) s :
  ramp_time (fst (output state now s))
  = ramp_time (sanity_check_ramp_time s).
Proof.
  unfold output; simpl.
  rewrite slew_control_output_eq, update_rotor_runup_eq, before_runup_eq,
    update_rotor_ramp_eq.
  simpl. unfold sanity_check_ramp_time. simpl.
  destruct (ramp_time s <=? 0)%Z; reflexivity.
Qed.

(** The ramp output after a tick lies between 0 and the target. *)
Lemma output_ramp_bounds (state : RotorControlState) (now : Z) s :
  0 <= rotor_ramp_output s ->
  0 <= rotor_ramp_output (fst (output state now s)) <= ramp_target state.
Proof.
  intros R. rewrite output_rotor_ramp_output. split.
  - apply update_rotor_ramp_ge_0.
    + destruct state; simpl; lra.
    + apply tick_dt_nonneg.
    + exact R.
  - apply update_rotor_ramp_le_target.
Qed.

Lemma ramp_target_le_1 (state : RotorControlState) : ramp_target state <= 1.
Proof. destruct state; simpl; lra. Qed.

(** Ramp and run-up outputs seen by the slewing part of the run-up estimator
    within a tick. *)
Lemma runup_stage_inputs (state : RotorControlState) (now : Z) s :
  rotor_ramp_output (sanity_check_runup_time (before_runup state now s))
  = rotor_ramp_output (fst (output state now s))
  /\ rotor_runup_output (sanity_check_runup_time (before_runup state now s))
     = rotor_runup_output s.
Proof.
  rewrite output_rotor_ramp_output.
  rewrite sanity_check_runup_time_eq, before_runup_eq, update_rotor_ramp_eq.
  split; reflexivity.
Qed.

Lemma output_runup_le (state : RotorControlState) (now : Z) (hi : float) s :
  ramp_target state <= hi -> rotor_runup_output s <= hi ->
  rotor_runup_output (fst (output state now s)) <= hi.
Proof.
  intros T U. rewrite output_rotor_runup_output.
  destruct (runup_stage_inputs state now s) as [Er Eu].
  apply slew_rotor_runup_le.
  - apply tick_dt_nonneg.
  - apply sanity_check_runup_time_ge.
  - rewrite Er, output_rotor_ramp_output.
    eapply Qle_trans; [apply update_rotor_ramp_le_target | exact T].
  - rewrite Eu. exact U.
Qed.

Lemma output_runup_ge_0 (state : RotorControlState) (now : Z) s :
  0 <= rotor_ramp_output s -> 0 <= rotor_runup_output s ->
  0 <= rotor_runup_output (fst (output state now s)).
Proof.
  intros R U. rewrite output_rotor_runup_output.
  destruct (runup_stage_inputs state now s) as [Er Eu].
  pose proof (output_ramp_bounds state now s R) as [B0 B1].
  pose proof (ramp_target_le_1 state) as T1.
  apply (slew_rotor_runup_between (tick_dt now s) 0
           (Qmax 1 (rotor_runup_output s))).
  - apply tick_dt_nonneg.
  - apply sanity_check_runup_time_ge.
  - rewrite Er. split; [exact B0|].
    eapply Qle_trans; [|apply Q.le_max_l]. lra.
  - rewrite Eu. split; [exact U | apply Q.le_max_r].
Qed.




(** *** PWM mapper *)



(** *** Run-up complete flag after a tick *)

Lemma enabled_mode s :
  control_mode s <> ROTOR_CONTROL_MODE_DISABLED ->
  mode_is_disabled (control_mode s) = false.
Proof. destruct (control_mode s); simpl; congruence. Qed.

Lemma output_runup_complete_enabled
    (state : RotorControlState) (now : Z) s :
  control_mode s <> ROTOR_CONTROL_MODE_DISABLED ->
  runup_complete (fst (output state now s))
  = (runup_complete s
     || fle 1 (rotor_ramp_output (fst (output state now s)))
        && fle 1 (rotor_runup_output (fst (output state now s))))
    && negb (fle (rotor_runup_output (fst (output state now s)))
               (critical_speed s)).
Proof.
  intros M. apply enabled_mode in M.
  rewrite output_runup_complete, output_rotor_runup_output.
  destruct (runup_stage_inputs state now s) as [Er _]. rewrite <- Er.
  unfold update_rotor_runup.
  set (s1 := sanity_check_runup_time (before_runup state now s)).
  assert (E : slew_rotor_runup (tick_dt now s) s1
              = with_rotor_runup_output
                  (rotor_runup_output (slew_rotor_runup (tick_dt now s) s1))
                  s1) by apply slew_rotor_runup_eq.
  assert (F : control_mode s1 = control_mode s
              /\ runup_complete s1 = runup_complete s
              /\ critical_speed s1 = critical_speed s).
  { unfold s1. rewrite sanity_check_runup_time_eq, before_runup_eq,
      update_rotor_ramp_eq. repeat split. }
  destruct F as (F1 & F2 & F3).
  rewrite update_runup_complete_enabled.
  - rewrite E. fields. rewrite F2, F3. reflexivity.
  - rewrite E. fields. rewrite F1. exact M.
Qed.

(** *** Call sequences *)

Lemma do_call_config (c : rsc_call) s :
  control_mode (do_call c s) = control_mode s
  /\ critical_speed (do_call c s) = critical_speed s.
Proof.
  destruct c; cbn [do_call]; try (split; reflexivity).
  split; [apply output_control_mode | apply output_critical_speed].
Qed.

Lemma run_config (cs : list rsc_call) s :
  control_mode (run cs s) = control_mode s
  /\ critical_speed (run cs s) = critical_speed s.
Proof.
  revert s. induction cs as [| c cs IH]; intros s; cbn [run].
  - split; reflexivity.
  - destruct (IH (do_call c s)) as [-> ->]. apply do_call_config.
Qed.

Lemma run_runup_le_1 (cs : list rsc_call) s :
  rotor_runup_output s <= 1 -> rotor_runup_output (run cs s) <= 1.
Proof.
  revert s. induction cs as [| c cs IH]; intros s U; cbn [run]; [exact U|].
  apply IH. destruct c; cbn [do_call]; try exact U.
  apply output_runup_le; [apply ramp_target_le_1 | exact U].
Qed.

Lemma ticks_above_critical_prefix (cs1 cs2 : list rsc_call) s :
  ticks_above_critical (cs1 ++ cs2) s -> ticks_above_critical cs1 s.
Proof.
  revert s. induction cs1 as [| c cs1 IH]; intros s;
    cbn [app ticks_above_critical]; [trivial|].
  intros [A B]. split; [exact A | now apply IH].
Qed.

Lemma run_cons (c : rsc_call) (cs : list rsc_call) s :
  run (c :: cs) s = run cs (do_call c s).
Proof. reflexivity. Qed.

Lemma ticks_above_critical_tick
    (state : RotorControlState) (now : Z) (cs : list rsc_call) s :
  ticks_above_critical (Call_output state now :: cs) s ->
  critical_speed s < rotor_runup_output (fst (output state now s))
  /\ ticks_above_critical cs (fst (output state now s)).
Proof.
  cbn [ticks_above_critical do_call]. rewrite output_critical_speed.
  trivial.
Qed.

Lemma run_keeps_runup_complete (cs : list rsc_call) s :
  control_mode s <> ROTOR_CONTROL_MODE_DISABLED ->
  runup_complete s = true ->
  ticks_above_critical cs s ->
  runup_complete (run cs s) = true.
Proof.
  revert s. induction cs as [| c cs IH]; intros s M C A; [exact C|].
  rewrite run_cons. destruct c as [state now | low high negc rate | e r d f].
  - apply ticks_above_critical_tick in A. destruct A as [A B].
    cbn [do_call]. apply IH; try exact B.
    + rewrite output_control_mode. exact M.
    + rewrite output_runup_complete_enabled by exact M.
      rewrite C. cbn [orb andb].
      destruct (fle_spec (rotor_runup_output (fst (output state now s)))
                  (critical_speed s)); [lra | reflexivity].
  - apply IH; [exact M | exact C | apply A].
  - apply IH; [exact M | exact C | apply A].
Qed.

(** *** The estimators in closed form *)

(** The ramp estimator in closed form. *)
Lemma update_rotor_ramp_closed (tgt dt : float) s :
  let T := Z.max 1 (ramp_time s) in
  ramp_time (update_rotor_ramp tgt dt s) = T
  /\ (rotor_ramp_output s < tgt ->
      rotor_ramp_output (update_rotor_ramp tgt dt s)
      == Qmin tgt (Qmax (rotor_ramp_output s) (rotor_runup_output s)
                   + dt / inject_Z T))
  /\ (tgt <= rotor_ramp_output s ->
      rotor_ramp_output (update_rotor_ramp tgt dt s) = tgt).
Proof.
  cbv zeta.
  assert (E : ramp_time (sanity_check_ramp_time s) = Z.max 1 (ramp_time s)).
  { unfold sanity_check_ramp_time.
    destruct (Z.leb_spec (ramp_time s) 0); fields; lia. }
  assert (F : rotor_ramp_output (sanity_check_ramp_time s)
              = rotor_ramp_output s
              /\ rotor_runup_output (sanity_check_ramp_time s)
                 = rotor_runup_output s).
  { unfold sanity_check_ramp_time.
    destruct (ramp_time s <=? 0)%Z; split; reflexivity. }
  destruct F as [Fr Fu].
  split; [|split].
  - rewrite update_rotor_ramp_eq. fields. exact E.
  - intros L. unfold update_rotor_ramp.
    revert E Fr Fu. generalize (sanity_check_ramp_time s). intros x E Fr Fu.
    destruct (flt_spec (rotor_ramp_output x) tgt) as [A | A];
      [|rewrite Fr in A; lra].
    destruct (flt_spec (rotor_ramp_output x) (rotor_runup_output x))
      as [B | B]; fields; rewrite E;
      set (inc := dt / inject_Z (Z.max 1 (ramp_time s)));
      match goal with
      | |- context [flt tgt ?y] => destruct (flt_spec tgt y) as [C | C]
      end; fields; rewrite Fr, Fu in *;
      destruct (Q.max_spec (rotor_ramp_output s) (rotor_runup_output s))
        as [[M EM] | [M EM]]; rewrite EM;
      match goal with
      | |- context [Qmin tgt ?y] =>
          destruct (Q.min_spec tgt y) as [[N ->] | [N ->]]
      end; lra.
  - intros L. unfold update_rotor_ramp.
    revert Fr. generalize (sanity_check_ramp_time s). intros x Fr.
    destruct (flt_spec (rotor_ramp_output x) tgt) as [A | A];
      [rewrite Fr in A; lra | reflexivity].
Qed.

Lemma slew_rotor_runup_closed (dt : float) s :
  let inc := dt / inject_Z (runup_time s) in
  let u' := rotor_runup_output (slew_rotor_runup dt s) in
  (rotor_runup_output s < rotor_ramp_output s ->
   u' == Qmin (rotor_ramp_output s) (rotor_runup_output s + inc))
  /\ (rotor_ramp_output s <= rotor_runup_output s ->
      u' == Qmax (rotor_ramp_output s) (rotor_runup_output s - inc)).
Proof.
  intros inc u'. unfold u', slew_rotor_runup. fold inc. clearbody inc.
  destruct (flt_spec (rotor_runup_output s) (rotor_ramp_output s)) as [A | A];
    fields;
    match goal with
    | |- context [flt ?a ?b] => destruct (flt_spec a b) as [B | B]
    end; fields; split; intros C; try lra.
  - destruct (Q.min_spec (rotor_ramp_output s) (rotor_runup_output s + inc))
      as [[M ->] | [M ->]]; lra.
  - destruct (Q.min_spec (rotor_ramp_output s) (rotor_runup_output s + inc))
      as [[M ->] | [M ->]]; lra.
  - destruct (Q.max_spec (rotor_ramp_output s) (rotor_runup_output s - inc))
      as [[M ->] | [M ->]]; lra.
  - destruct (Q.max_spec (rotor_ramp_output s) (rotor_runup_output s - inc))
      as [[M ->] | [M ->]]; lra.
Qed.

End Facts.

(** * Properties of the controller *)

Section Properties.

Context {PID : Type} `{AC_PID PID}.

Implicit Types s : AP_MotorsHeli_RSC PID.



(** C3 (as amended).  A call output(Stop) leaves control_output exactly 0
    when no slew-rate limit is configured.  With a positive slew rate and a
    non-negative previous control output it leaves
    max(0, previous - max_delta), max_delta = dt * power_slewrate * 0.01. *)
Theorem stop_control_output (now : Z) s :
  ((power_slewrate s <= 0)%Z ->
   control_output (fst (output ROTOR_CONTROL_STOP now s)) = 0)
  /\ ((0 < power_slewrate s)%Z -> 0 <= control_output s ->
      control_output (fst (output ROTOR_CONTROL_STOP now s))
      == Qmax 0 (control_output s
                 - tick_dt now s * inject_Z (power_slewrate s) * (1 # 100))).
Proof.
  rewrite output_control_output.
  change (control_output (before_runup ROTOR_CONTROL_STOP now s)) with 0.
  unfold slew_control_output. simpl. split.
  - intros P. destruct (Z.ltb_spec 0 (power_slewrate s)); [lia|reflexivity].
  - intros P C. destruct (Z.ltb_spec 0 (power_slewrate s)); [|lia]. simpl.
    pose proof (max_delta_nonneg _ _ (tick_dt_nonneg now s) P) as M.
    revert M.
    generalize (tick_dt now s * inject_Z (power_slewrate s) * (1 # 100)).
    intros md M. unfold constrain_float.
    destruct (Q.max_spec 0 (control_output s - md)) as [[L ->] | [L ->]];
      split_tests; lra.
Qed.


(** C5.  In a control mode other than disabled, once runup_complete is true
    it is true after every call of a sequence of ticks and setter calls, as
    long as each tick ends with rotor_runup_output above critical_speed,
    whatever the ramp and run-up outputs do otherwise; a tick that ends with
    rotor_runup_output at or below critical_speed clears it; the
    configuration setters never change it. *)
Theorem runup_complete_hysteresis :
  (forall (cs1 cs2 : list rsc_call) s,
     control_mode s <> ROTOR_CONTROL_MODE_DISABLED ->
     runup_complete s = true ->
     ticks_above_critical (cs1 ++ cs2) s ->
     runup_complete (run cs1 s) = true)
  /\ (forall (state : RotorControlState) (now : Z) s,
        control_mode s <> ROTOR_CONTROL_MODE_DISABLED ->
        runup_complete s = true ->
        rotor_runup_output (fst (output state now s))
        <= critical_speed (fst (output state now s)) ->
        runup_complete (fst (output state now s)) = false)
  /\ (forall low high negc slewrate s,
        runup_complete (set_power_output_range low high negc slewrate s)
        = runup_complete s)
  /\ (forall enabled rpm deadband feedback s,
        runup_complete (set_gov_enable enabled rpm deadband feedback s)
        = runup_complete s).
Proof.
  repeat split.
  - intros cs1 cs2 s M C A.
    apply run_keeps_runup_complete; try assumption.
    now apply ticks_above_critical_prefix with cs2.
  - intros state now s M C L.
    rewrite output_runup_complete_enabled by exact M.
    rewrite output_critical_speed in L.
    apply fle_true_iff in L. rewrite L. apply andb_false_r.
Qed.

(** C6.  On every tick the ramp estimator divides dt by the ramp time of the
    state [s1] left by its sanity check, max(1, ramp_time), and the run-up
    estimator divides dt by the run-up time of the state [s2] left by its
    own, max(runup_time, that ramp time): the increments of the two outputs
    are dt over these values.  They satisfy ramp_time >= 1, runup_time >= 1
    and runup_time >= ramp_time, so no divisor is zero or negative, whatever
    the configured times; the coerced values are the ones stored when the
    tick returns. *)
Theorem time_constants_coerced (state : RotorControlState) (now : Z) s :
  let dt := tick_dt now s in
  let s1 := sanity_check_ramp_time (with_last_update_us now s) in
  let s2 := sanity_check_runup_time (before_runup state now s) in
  let s' := fst (output state now s) in
  (1 <= ramp_time s1)%Z
  /\ (1 <= runup_time s2)%Z
  /\ (ramp_time s2 <= runup_time s2)%Z
  /\ ramp_time s2 = ramp_time s1
  /\ ramp_time s1 = Z.max 1 (ramp_time s)
  /\ runup_time s2 = Z.max (runup_time s) (ramp_time s1)
  /\ 0 < inject_Z (ramp_time s1)
  /\ 0 < inject_Z (runup_time s2)
  /\ ramp_time s' = ramp_time s1
  /\ runup_time s' = runup_time s2
  /\ (rotor_ramp_output s < ramp_target state ->
      rotor_ramp_output s'
      == Qmin (ramp_target state)
           (Qmax (rotor_ramp_output s) (rotor_runup_output s)
            + dt / inject_Z (ramp_time s1)))
  /\ (rotor_runup_output s < rotor_ramp_output s' ->
      rotor_runup_output s'
      == Qmin (rotor_ramp_output s')
           (rotor_runup_output s + dt / inject_Z (runup_time s2)))
  /\ (rotor_ramp_output s' <= rotor_runup_output s ->
      rotor_runup_output s'
      == Qmax (rotor_ramp_output s')
           (rotor_runup_output s - dt / inject_Z (runup_time s2))).
Proof.
  intros dt s1 s2 s'.
  pose proof (sanity_check_ramp_time_ge_1 (with_last_update_us now s)) as R.
  pose proof (sanity_check_runup_time_ge (before_runup state now s))
    as [U1 U2].
  fold s1 in R. fold s2 in U1, U2.
  assert (E : ramp_time s2 = ramp_time s1).
  { unfold s2. rewrite sanity_check_runup_time_eq, before_runup_eq,
      update_rotor_ramp_eq. reflexivity. }
  assert (Eb : ramp_time (before_runup state now s) = ramp_time s1).
  { rewrite before_runup_eq, update_rotor_ramp_eq. reflexivity. }
  assert (Ev : runup_time (before_runup state now s) = runup_time s).
  { rewrite before_runup_eq, update_rotor_ramp_eq. reflexivity. }
  assert (Em : ramp_time s1 = Z.max 1 (ramp_time s)).
  { unfold s1, sanity_check_ramp_time. fields.
    destruct (Z.leb_spec (ramp_time s) 0); fields; lia. }
  assert (Eu : runup_time s2 = Z.max (runup_time s) (ramp_time s1)).
  { unfold s2. revert Eb Ev. generalize (before_runup state now s).
    intros b Eb Ev. unfold sanity_check_runup_time. rewrite Eb, Ev.
    destruct (Z.ltb_spec (runup_time s) (ramp_time s1)); fields;
      rewrite ?Ev;
      match goal with
      | |- context [(?a <=? 0)%Z] => destruct (Z.leb_spec a 0)
      end; fields; rewrite ?Ev; lia. }
  pose proof (update_rotor_ramp_closed (ramp_target state) dt
                (with_last_update_us now s)) as Cr.
  cbv zeta in Cr.
  cbn [rotor_ramp_output rotor_runup_output ramp_time with_last_update_us]
    in Cr.
  destruct Cr as (_ & Cr & _). rewrite <- Em in Cr.
  destruct (runup_stage_inputs state now s) as [Sr Su]. fold s2 s' in Sr, Su.
  pose proof (slew_rotor_runup_closed dt s2) as Cu. cbv zeta in Cu.
  rewrite Sr, Su in Cu.
  assert (Ou : rotor_runup_output s'
               = rotor_runup_output (slew_rotor_runup dt s2))
    by apply output_rotor_runup_output.
  rewrite <- Ou in Cu. destruct Cu as [Cu1 Cu2].
  assert (Or : rotor_ramp_output s'
               = rotor_ramp_output
                   (update_rotor_ramp (ramp_target state) dt
                      (with_last_update_us now s)))
    by apply output_rotor_ramp_output.
  rewrite <- Or in Cr.
  split; [exact R|]. split; [exact U1|].
  split; [rewrite E, <- Eb; exact U2|]. split; [exact E|].
  split; [exact Em|]. split; [exact Eu|].
  split; [now apply inject_Z_pos|]. split; [now apply inject_Z_pos|].
  split.
  { unfold s', output. cbn [fst].
    rewrite slew_control_output_eq, update_rotor_runup_eq, before_runup_eq,
      update_rotor_ramp_eq.
    reflexivity. }
  split.
  { unfold s', output. cbn [fst].
    rewrite slew_control_output_eq, update_rotor_runup_eq. reflexivity. }
  split; [exact Cr|]. split; [exact Cu1 | exact Cu2].
Qed.





(** *** The ramp accumulation *)







(** C9.  In a control mode other than disabled with critical_speed >= 1,
    runup_complete is false after every call to output(), whatever calls
    came before, from any state whose run-up output is at most 1. *)
Theorem runup_never_complete_at_high_critical_speed
    (cs : list rsc_call) (state : RotorControlState) (now : Z) s :
  control_mode s <> ROTOR_CONTROL_MODE_DISABLED ->
  1 <= critical_speed s ->
  rotor_runup_output s <= 1 ->
  runup_complete (fst (output state now (run cs s))) = false.
Proof.
  intros M K U.
  destruct (run_config cs s) as [Em Ek].
  pose proof (run_runup_le_1 cs s U) as U'.
  rewrite output_runup_complete_enabled by (rewrite Em; exact M).
  rewrite Ek.
  pose proof (output_runup_le state now 1 (run cs s)
                (ramp_target_le_1 state) U') as L.
  destruct (fle_spec (rotor_runup_output (fst (output state now (run cs s))))
              (critical_speed s)); [apply andb_false_r | lra].
Qed.

(** C10.  In disabled mode a call output(Active) leaves control_output
    unchanged and performs no hardware write, while the time stamp is
    stored, the run-up complete flag is set and the ramp and run-up outputs
    are those of the two estimators. *)
Theorem disabled_active_frame (now : Z) s :
  control_mode s = ROTOR_CONTROL_MODE_DISABLED ->
  let s' := fst (output ROTOR_CONTROL_ACTIVE now s) in
  let ramped :=
    update_rotor_ramp 1 (tick_dt now s) (with_last_update_us now s) in
  control_output s' = control_output s
  /\ snd (output ROTOR_CONTROL_ACTIVE now s) = NoOutput
  /\ last_update_us s' = now
  /\ runup_complete s' = true
  /\ rotor_ramp_output s' = rotor_ramp_output ramped
  /\ rotor_runup_output s'
     = rotor_runup_output
         (slew_rotor_runup (tick_dt now s) (sanity_check_runup_time ramped)).
Proof.
  intros M. cbv zeta.
  set (ramped := update_rotor_ramp 1 (tick_dt now s)
                   (with_last_update_us now s)).
  assert (Mr : control_mode ramped = ROTOR_CONTROL_MODE_DISABLED).
  { unfold ramped. rewrite update_rotor_ramp_eq. exact M. }
  assert (B : before_runup ROTOR_CONTROL_ACTIVE now s = ramped).
  { unfold before_runup, dispatch_state.
    change (control_mode (update_rotor_ramp 1 (tick_dt now s)
                            (with_last_update_us now s)))
      with (control_mode ramped).
    rewrite Mr. reflexivity. }
  assert (Cr : control_output ramped = control_output s).
  { unfold ramped. rewrite update_rotor_ramp_eq. reflexivity. }
  split; [|split; [|split; [|split; [|split]]]].
  - rewrite output_control_output, B, Cr.
    apply slew_control_output_hold; [apply tick_dt_nonneg | reflexivity].
  - unfold output. cbn [snd]. unfold write_rsc.
    rewrite slew_control_output_eq, update_rotor_runup_eq, B. fields.
    rewrite Mr. reflexivity.
  - apply output_last_update_us.
  - rewrite output_runup_complete, B.
    unfold update_rotor_runup, update_runup_complete.
    rewrite slew_rotor_runup_eq, sanity_check_runup_time_eq. fields.
    rewrite Mr. reflexivity.
  - apply output_rotor_ramp_output.
  - rewrite output_rotor_runup_output, B. reflexivity.
Qed.

End Properties.

(** * The controller on concrete inputs *)

Ltac by_eval := vm_compute; repeat split; try discriminate.

(** The first tick takes the bootstrap dt of 1 ms, whatever the clock
    reads. *)
Example first_tick_from_rest :
  let s := fst (output ROTOR_CONTROL_ACTIVE 5000000 rsc_at_rest) in
  rotor_ramp_output s == 1 # 2000 /\ last_update_us s = 5000000%Z
  /\ runup_complete s = false.
Proof. by_eval. Qed.

(** The scenario of the specification: 2 s ramp and run-up times, ticks
    0.1 s apart, Active in passthrough mode from rest.  The ramp output
    reaches 1 and run-up completes at tick 20, not before. *)
Example scenario_tick_19 :
  let s := run (periodic_ticks ROTOR_CONTROL_ACTIVE 1000 100000 19)
             rsc_started in
  rotor_ramp_output s == 19 # 20 /\ runup_complete s = false.
Proof. by_eval. Qed.

Example scenario_tick_20 :
  let s := run (periodic_ticks ROTOR_CONTROL_ACTIVE 1000 100000 20)
             rsc_started in
  rotor_ramp_output s == 1 /\ rotor_runup_output s == 1
  /\ runup_complete s = true /\ control_output s == 1.
Proof. by_eval. Qed.

(** Governor outside the deadband: the PID output 0.3 is slew-limited from
    the previous 0.6 to 0.5. *)
Example governor_low_rpm_tick :
  let o := output ROTOR_CONTROL_ACTIVE 101000 rsc_governor_low_rpm in
  control_output (fst o) == 1 # 2 /\ snd o = SetOutputPwm 1500.
Proof. by_eval. Qed.





(** C3, on concrete inputs: without and with a slew-rate limit. *)
Lemma stop_control_output_witness :
  control_output (fst (output ROTOR_CONTROL_STOP 101000 rsc_full_speed)) = 0
  /\ control_output
       (fst (output ROTOR_CONTROL_STOP 1000 rsc_full_output_slewed))
     == Qmax 0 (control_output rsc_full_output_slewed
                - tick_dt 1000 rsc_full_output_slewed
                  * inject_Z (power_slewrate rsc_full_output_slewed)
                  * (1 # 100)).
Proof.
  split.
  - apply (proj1 (stop_control_output 101000 rsc_full_speed)). by_eval.
  - apply (proj2 (stop_control_output 1000 rsc_full_output_slewed));
      by_eval.
Defined.

(** C3 as stated fails: from a control output of 1 with a slew rate of 100
    percent per second, the first Stop tick (dt = 1 ms) leaves 0.999. *)
Lemma stop_not_zero_counterexample :
  control_output
    (fst (output ROTOR_CONTROL_STOP 1000 rsc_full_output_slewed))
  == 999 # 1000
  /\ ~ control_output
         (fst (output ROTOR_CONTROL_STOP 1000 rsc_full_output_slewed))
       == 0.
Proof.
  split; [by_eval|]. intros C. vm_compute in C. discriminate C.
Qed.


(** C5, on concrete inputs: two Idle ticks and a setter call from full speed
    drop the ramp output to 0 and keep the flag; a tick that takes the
    run-up output to the critical speed or below clears it. *)
Lemma runup_complete_hysteresis_witness :
  rotor_ramp_output
    (run [Call_output ROTOR_CONTROL_IDLE 101000;
          Call_set_gov_enable true 1500 50 1400;
          Call_output ROTOR_CONTROL_IDLE 201000] rsc_full_speed) == 0
  /\ runup_complete
       (run [Call_output ROTOR_CONTROL_IDLE 101000;
             Call_set_gov_enable true 1500 50 1400;
             Call_output ROTOR_CONTROL_IDLE 201000] rsc_full_speed) = true
  /\ runup_complete (fst (output ROTOR_CONTROL_IDLE 101000 rsc_slowing))
     = false.
Proof.
  destruct (@runup_complete_hysteresis P_controller _) as (A & B & _).
  split; [by_eval|]. split.
  - apply (A _ []); by_eval.
  - apply B; by_eval.
Defined.

(** C6, on a concrete input: an Active tick with the configured ramp_time 0
    and runup_time -3.  The ramp estimator divides by 1. *)
Lemma time_constants_coerced_witness :
  ramp_time
    (sanity_check_ramp_time (with_last_update_us 101000 rsc_bad_times))
  = 1%Z
  /\ runup_time
       (sanity_check_runup_time
          (before_runup ROTOR_CONTROL_ACTIVE 101000 rsc_bad_times))
     = 1%Z
  /\ rotor_ramp_output (fst (output ROTOR_CONTROL_ACTIVE 101000 rsc_bad_times))
     == Qmin (ramp_target ROTOR_CONTROL_ACTIVE)
          (Qmax (rotor_ramp_output rsc_bad_times)
             (rotor_runup_output rsc_bad_times)
           + tick_dt 101000 rsc_bad_times
             / inject_Z
                 (ramp_time
                    (sanity_check_ramp_time
                       (with_last_update_us 101000 rsc_bad_times)))).
Proof.
  pose proof (time_constants_coerced ROTOR_CONTROL_ACTIVE 101000
                rsc_bad_times) as W.
  cbv zeta in W.
  destruct W as (_ & _ & _ & _ & E1 & E2 & _ & _ & _ & _ & R & _).
  split; [rewrite E1; reflexivity|].
  split; [rewrite E2, E1; reflexivity|].
  apply R. by_eval.
Defined.




(** C9, on a concrete input: ramp and run-up at full speed, critical speed
    1. *)
Lemma runup_never_complete_at_high_critical_speed_witness :
  runup_complete (fst (output ROTOR_CONTROL_ACTIVE 101000 rsc_critical_1))
  = false.
Proof.
  apply (runup_never_complete_at_high_critical_speed []
           ROTOR_CONTROL_ACTIVE 101000 rsc_critical_1); by_eval.
Defined.

(** C10, on a concrete input. *)
Lemma disabled_active_frame_witness :
  control_output (fst (output ROTOR_CONTROL_ACTIVE 101000 rsc_disabled))
  = control_output rsc_disabled
  /\ snd (output ROTOR_CONTROL_ACTIVE 101000 rsc_disabled) = NoOutput
  /\ rotor_ramp_output (fst (output ROTOR_CONTROL_ACTIVE 101000 rsc_disabled))
     == 1 # 20.
Proof.
  destruct (disabled_active_frame 101000 rsc_disabled eq_refl)
    as (A & B & _).
  split; [exact A|]. split; [exact B|]. by_eval.
Defined.

(** * Further properties of the controller *)

Ltac frame_tick :=
  unfold output; cbn [fst];
  rewrite slew_control_output_eq, update_rotor_runup_eq, before_runup_eq,
    update_rotor_ramp_eq;
  reflexivity.

Section Further.

Context {PID : Type} `{AC_PID PID}.

Implicit Types s : AP_MotorsHeli_RSC PID.

(** A tick leaves the configured levels and the governor settings alone. *)
Lemma output_levels (state : RotorControlState) (now : Z) s :
  idle_output (fst (output state now s)) = idle_output s
  /\ desired_speed (fst (output state now s)) = desired_speed s
  /\ power_output_low (fst (output state now s)) = power_output_low s
  /\ power_output_high (fst (output state now s)) = power_output_high s
  /\ power_output_negc (fst (output state now s)) = power_output_negc s
  /\ load_feedforward (fst (output state now s)) = load_feedforward s.
Proof. repeat split; frame_tick. Qed.

Lemma output_governor_settings (state : RotorControlState) (now : Z) s :
  gov_enabled (fst (output state now s)) = gov_enabled s
  /\ governor_rpm_setpoint (fst (output state now s))
     = governor_rpm_setpoint s
  /\ governor_rpm_deadband (fst (output state now s))
     = governor_rpm_deadband s
  /\ rpm_feedback (fst (output state now s)) = rpm_feedback s
  /\ power_slewrate (fst (output state now s)) = power_slewrate s.
Proof. repeat split; frame_tick. Qed.

(** Without a slew-rate limit the control output after a tick is the one
    the command dispatch computed. *)
Lemma output_control_output_unslewed
    (state : RotorControlState) (now : Z) s :
  (power_slewrate s <= 0)%Z ->
  control_output (fst (output state now s))
  = control_output (before_runup state now s).
Proof.
  intros P. rewrite output_control_output. unfold slew_control_output.
  fields. destruct (Z.ltb_spec 0 (power_slewrate s)); [lia | reflexivity].
Qed.

(** State after the ramp estimator within a tick. *)
Lemma ramped_fields (tgt : float) (now : Z) s :
  let u := update_rotor_ramp tgt (tick_dt now s) (with_last_update_us now s) in
  control_mode u = control_mode s /\ gov_enabled u = gov_enabled s
  /\ governor_rpm_setpoint u = governor_rpm_setpoint s
  /\ governor_rpm_deadband u = governor_rpm_deadband s
  /\ rpm_feedback u = rpm_feedback s /\ pid_rotor_gov u = pid_rotor_gov s
  /\ idle_output u = idle_output s /\ desired_speed u = desired_speed s
  /\ control_output u = control_output s.
Proof.
  cbv zeta. rewrite update_rotor_ramp_eq. repeat split.
Qed.

(** X1.  Whatever the command, mode and configuration, a positive slew rate
    bounds the change of control_output over one tick by
    dt * power_slewrate * 0.01. *)
Theorem control_output_slew_limited
    (state : RotorControlState) (now : Z) s :
  (0 < power_slewrate s)%Z ->
  let max_delta := tick_dt now s * inject_Z (power_slewrate s) * (1 # 100) in
  control_output s - max_delta
  <= control_output (fst (output state now s))
  <= control_output s + max_delta.
Proof.
  intros P max_delta. rewrite output_control_output.
  unfold slew_control_output. fields.
  destruct (Z.ltb_spec 0 (power_slewrate s)); [|lia]. fields.
  pose proof (max_delta_nonneg _ _ (tick_dt_nonneg now s) P) as M.
  fold max_delta in M |- *.
  apply constrain_float_between. lra.
Qed.

(** X2.  With no slew-rate limit an Idle tick leaves control_output exactly
    equal to idle_output, whatever the previous output and the ramp are. *)
Theorem idle_control_output (now : Z) s :
  (power_slewrate s <= 0)%Z ->
  control_output (fst (output ROTOR_CONTROL_IDLE now s)) = idle_output s.
Proof.
  intros P. rewrite output_control_output_unslewed by exact P.
  unfold before_runup, dispatch_state. fields.
  apply (ramped_fields 0 now s).
Qed.

Lemma ramp_down_step (state : RotorControlState) (now : Z) s :
  state <> ROTOR_CONTROL_ACTIVE ->
  0 <= rotor_ramp_output s ->
  rotor_ramp_output (fst (output state now s)) = 0.
Proof.
  intros A R. rewrite output_rotor_ramp_output.
  assert (T : ramp_target state = 0)
    by (destruct state; try reflexivity; congruence).
  rewrite T. unfold update_rotor_ramp, sanity_check_ramp_time. fields.
  destruct (ramp_time s <=? 0)%Z; fields;
    (destruct (flt_spec (rotor_ramp_output s) 0); [lra | reflexivity]).
Qed.

(** X3.  Ramping down happens instantly: a Stop or Idle tick leaves
    rotor_ramp_output exactly 0, from any non-negative ramp output and
    whatever the elapsed time and the ramp time are. *)
Theorem ramp_down_is_instant (state : RotorControlState) (now : Z) s :
  state <> ROTOR_CONTROL_ACTIVE ->
  0 <= rotor_ramp_output s ->
  rotor_ramp_output (fst (output state now s)) = 0.
Proof. apply ramp_down_step. Qed.

Lemma ramped_levels (tgt : float) (now : Z) s :
  let u := update_rotor_ramp tgt (tick_dt now s) (with_last_update_us now s) in
  power_output_low u = power_output_low s
  /\ power_output_high u = power_output_high s
  /\ power_output_negc u = power_output_negc s
  /\ load_feedforward u = load_feedforward s.
Proof.
  cbv zeta. rewrite update_rotor_ramp_eq. repeat split.
Qed.

Lemma output_pid_rotor_gov (state : RotorControlState) (now : Z) s :
  pid_rotor_gov (fst (output state now s))
  = pid_rotor_gov (before_runup state now s).
Proof.
  unfold output. cbn [fst].
  rewrite slew_control_output_eq, update_rotor_runup_eq. reflexivity.
Qed.

(** The passthrough value read on the state after an Active tick is the one
    the dispatch computed from the ramped state. *)
Lemma passthrough_output_after_tick (now : Z) s :
  passthrough_output (fst (output ROTOR_CONTROL_ACTIVE now s))
  = passthrough_output
      (update_rotor_ramp 1 (tick_dt now s) (with_last_update_us now s)).
Proof.
  unfold passthrough_output.
  destruct (output_levels ROTOR_CONTROL_ACTIVE now s) as (-> & -> & _).
  rewrite output_rotor_ramp_output.
  destruct (ramped_fields 1 now s) as (_ & _ & _ & _ & _ & _ & -> & -> & _).
  reflexivity.
Qed.

Lemma open_loop_output_after_tick (now : Z) s :
  calc_open_loop_power_control_output
    (fst (output ROTOR_CONTROL_ACTIVE now s))
  = calc_open_loop_power_control_output
      (update_rotor_ramp 1 (tick_dt now s) (with_last_update_us now s)).
Proof.
  unfold calc_open_loop_power_control_output.
  destruct (output_levels ROTOR_CONTROL_ACTIVE now s)
    as (-> & _ & -> & -> & -> & ->).
  rewrite output_rotor_ramp_output.
  destruct (ramped_fields 1 now s) as (_ & _ & _ & _ & _ & _ & -> & _).
  destruct (ramped_levels 1 now s) as (-> & -> & -> & ->).
  reflexivity.
Qed.

(** X4.  With no slew-rate limit, an Active tick in speed-passthrough or
    speed-setpoint mode, or in governor mode with the governor switched off,
    leaves control_output = idle_output + rotor_ramp_output * (desired_speed
    - idle_output), on the ramp output the tick has just produced. *)
Theorem active_passthrough_law (now : Z) s :
  (power_slewrate s <= 0)%Z ->
  control_mode s = ROTOR_CONTROL_MODE_SPEED_PASSTHROUGH
  \/ control_mode s = ROTOR_CONTROL_MODE_SPEED_SETPOINT
  \/ (control_mode s = ROTOR_CONTROL_MODE_GOVERNOR /\ gov_enabled s = false) ->
  control_output (fst (output ROTOR_CONTROL_ACTIVE now s))
  = passthrough_output (fst (output ROTOR_CONTROL_ACTIVE now s)).
Proof.
  intros P M. rewrite passthrough_output_after_tick.
  rewrite output_control_output_unslewed by exact P.
  unfold before_runup, dispatch_state.
  destruct (ramped_fields 1 now s) as (-> & -> & _).
  destruct M as [-> | [-> | [-> ->]]]; reflexivity.
Qed.

(** X5.  With no slew-rate limit, an Active tick in open-loop power mode
    leaves control_output equal to the open-loop calculator's value on the
    state it returns; so does governor mode when the governor is enabled,
    the RPM error is outside the deadband and no PID controller is
    attached. *)
Theorem active_open_loop_law (now : Z) s :
  (power_slewrate s <= 0)%Z ->
  control_mode s = ROTOR_CONTROL_MODE_OPEN_LOOP_POWER_OUTPUT
  \/ (control_mode s = ROTOR_CONTROL_MODE_GOVERNOR /\ gov_enabled s = true
      /\ inject_Z (governor_rpm_deadband s)
         <= fabs (inject_Z (governor_rpm_setpoint s) - rpm_feedback s)
      /\ pid_rotor_gov s = None) ->
  control_output (fst (output ROTOR_CONTROL_ACTIVE now s))
  = calc_open_loop_power_control_output
      (fst (output ROTOR_CONTROL_ACTIVE now s)).
Proof.
  intros P M. rewrite open_loop_output_after_tick.
  rewrite output_control_output_unslewed by exact P.
  unfold before_runup, dispatch_state.
  destruct (ramped_fields 1 now s) as (Fm & Fg & Fs & Fd & Ff & Fp & _).
  rewrite Fm, Fg, Fs, Fd, Ff.
  destruct M as [-> | (-> & -> & D & N)]; [reflexivity|].
  apply flt_false_iff in D. cbn [negb]. rewrite D.
  unfold calc_closed_loop_power_control_output. rewrite Fp, N. reflexivity.
Qed.

(** X6.  In governor mode with the governor enabled, the RPM error outside
    the deadband and a PID controller attached, an Active tick feeds
    (rotor_ramp_output * setpoint - feedback) / 100, on the ramp output just
    produced, to the PID and stores the PID's new state; with no slew-rate
    limit control_output is the PID output clamped to [0,1]; with any slew
    rate control_output stays in [0,1] if it was there before, whatever the
    configured output levels are. *)
Theorem governor_drives_pid (now : Z) (pid : PID) s :
  control_mode s = ROTOR_CONTROL_MODE_GOVERNOR ->
  gov_enabled s = true ->
  inject_Z (governor_rpm_deadband s)
  <= fabs (inject_Z (governor_rpm_setpoint s) - rpm_feedback s) ->
  pid_rotor_gov s = Some pid ->
  let s' := fst (output ROTOR_CONTROL_ACTIVE now s) in
  let r :=
    get_pid
      (set_input_filter_all
         ((rotor_ramp_output s' * inject_Z (governor_rpm_setpoint s)
           - rpm_feedback s) / 100) pid) in
  pid_rotor_gov s' = Some (snd r)
  /\ ((power_slewrate s <= 0)%Z ->
      control_output s' = constrain_float (fst r) 0 1)
  /\ (in_unit (control_output s) -> in_unit (control_output s')).
Proof.
  intros M G D Pid. cbv zeta.
  rewrite output_rotor_ramp_output.
  change (ramp_target ROTOR_CONTROL_ACTIVE) with 1.
  set (u := update_rotor_ramp 1 (tick_dt now s) (with_last_update_us now s)).
  set (r := get_pid
              (set_input_filter_all
                 ((rotor_ramp_output u * inject_Z (governor_rpm_setpoint s)
                   - rpm_feedback s) / 100) pid)).
  destruct (ramped_fields 1 now s) as (Fm & Fg & Fs & Fd & Ff & Fp & _).
  fold u in Fm, Fg, Fs, Fd, Ff, Fp.
  apply flt_false_iff in D.
  assert (B : before_runup ROTOR_CONTROL_ACTIVE now s
              = with_control_output (constrain_float (fst r) 0 1)
                  (with_pid_rotor_gov (Some (snd r)) u)).
  { unfold before_runup, dispatch_state. fold u.
    rewrite Fm, Fg, Fs, Fd, Ff, M, G. cbn [negb]. rewrite D.
    unfold calc_closed_loop_power_control_output.
    rewrite Fp, Pid, Fg, G, Fs, Ff. fold r. destruct r. reflexivity. }
  split; [|split].
  - rewrite output_pid_rotor_gov, B. reflexivity.
  - intros P. rewrite output_control_output_unslewed by exact P.
    rewrite B. reflexivity.
  - intros C. rewrite output_control_output, B. fields.
    apply slew_control_output_between.
    + apply tick_dt_nonneg.
    + exact C.
    + fields. apply constrain_float_between. lra.
Qed.


(** X8.  When power_output_high and power_output_negc are equal the
    open-loop output depends on the load only through its absolute value:
    loads +x and -x give the same output. *)
Theorem open_loop_sign_symmetry s :
  power_output_high s == power_output_negc s ->
  calc_open_loop_power_control_output s
  == idle_output s
     + rotor_ramp_output s
       * ((power_output_low s - idle_output s)
          + (power_output_high s - power_output_low s)
            * Qabs (load_feedforward s)).
Proof.
  intros E. unfold calc_open_loop_power_control_output.
  destruct (fle_spec 0 (load_feedforward s)) as [L | L].
  - rewrite (Qabs_pos _ L). reflexivity.
  - rewrite (Qabs_neg (load_feedforward s)) by lra. rewrite E. ring.
Qed.

(** ** The two estimators *)

(** X9.  An Active tick stores max(1, ramp_time) as the ramp time.  Below
    full speed the ramp output restarts from the larger of the ramp and
    run-up outputs (it jumps to the estimated rotor speed), adds
    dt / ramp_time and stops at 1; at or above 1 it is set to 1.  A ramp
    output of at most 1 never decreases on an Active tick. *)
Theorem active_ramp_law (now : Z) s :
  let s' := fst (output ROTOR_CONTROL_ACTIVE now s) in
  let T := Z.max 1 (ramp_time s) in
  ramp_time s' = T
  /\ (rotor_ramp_output s < 1 ->
      rotor_ramp_output s'
      == Qmin 1 (Qmax (rotor_ramp_output s) (rotor_runup_output s)
                 + tick_dt now s / inject_Z T))
  /\ (1 <= rotor_ramp_output s -> rotor_ramp_output s' = 1)
  /\ (rotor_ramp_output s <= 1 ->
      rotor_ramp_output s <= rotor_ramp_output s').
Proof.
  cbv zeta.
  pose proof (update_rotor_ramp_closed 1 (tick_dt now s)
                (with_last_update_us now s)) as C.
  cbv zeta in C.
  cbn [rotor_ramp_output rotor_runup_output ramp_time with_last_update_us]
    in C.
  destruct C as (Ct & Cl & Cg).
  assert (Et : ramp_time (fst (output ROTOR_CONTROL_ACTIVE now s))
               = Z.max 1 (ramp_time s)).
  { rewrite <- Ct. unfold output. cbn [fst].
    rewrite slew_control_output_eq, update_rotor_runup_eq, before_runup_eq.
    reflexivity. }
  rewrite output_rotor_ramp_output.
  change (ramp_target ROTOR_CONTROL_ACTIVE) with 1.
  split; [exact Et|]. split; [exact Cl|]. split; [exact Cg|].
  intros L.
  pose proof (div_time_nonneg (tick_dt now s) (Z.max 1 (ramp_time s))
                (tick_dt_nonneg now s) ltac:(lia)) as I.
  destruct (Qlt_le_dec (rotor_ramp_output s) 1) as [A | A].
  - rewrite (Cl A). revert I.
    generalize (tick_dt now s / inject_Z (Z.max 1 (ramp_time s))).
    intros inc I.
    destruct (Q.max_spec (rotor_ramp_output s) (rotor_runup_output s))
      as [[M ->] | [M ->]];
      match goal with
      | |- context [Qmin 1 ?y] =>
          destruct (Q.min_spec 1 y) as [[N ->] | [N ->]]
      end; lra.
  - rewrite (Cg A). exact L.
Qed.

Lemma slew_rotor_runup_law (dt : float) s :
  0 <= dt -> (1 <= runup_time s)%Z ->
  let inc := dt / inject_Z (runup_time s) in
  let u' := rotor_runup_output (slew_rotor_runup dt s) in
  Qabs (u' - rotor_runup_output s) <= inc
  /\ (rotor_runup_output s <= rotor_ramp_output s ->
      rotor_runup_output s <= u' <= rotor_ramp_output s)
  /\ (rotor_ramp_output s <= rotor_runup_output s ->
      rotor_ramp_output s <= u' <= rotor_runup_output s)
  /\ (Qabs (rotor_ramp_output s - rotor_runup_output s) <= inc ->
      u' == rotor_ramp_output s).
Proof.
  intros D T inc u'.
  pose proof (div_time_nonneg dt _ D T) as I. fold inc in I.
  unfold u', slew_rotor_runup. fold inc. clearbody inc.
  destruct (flt_spec (rotor_runup_output s) (rotor_ramp_output s)) as [A | A];
    fields;
    match goal with
    | |- context [flt ?a ?b] => destruct (flt_spec a b) as [B | B]
    end; fields;
    (split; [apply Qabs_Qle_condition; split; lra|]);
    (split; [intros; lra|]); (split; [intros; lra|]);
    intros C; apply Qabs_Qle_condition in C; lra.
Qed.

Lemma output_runup_time (state : RotorControlState) (now : Z) s :
  runup_time (fst (output state now s))
  = runup_time (sanity_check_runup_time (before_runup state now s)).
Proof.
  unfold output. cbn [fst].
  rewrite slew_control_output_eq, update_rotor_runup_eq. reflexivity.
Qed.


Lemma update_runup_complete_disabled s :
  control_mode s = ROTOR_CONTROL_MODE_DISABLED ->
  runup_complete (update_runup_complete s) = true.
Proof.
  intros M. unfold update_runup_complete. rewrite M. reflexivity.
Qed.

Lemma runup_stage_control_mode (state : RotorControlState) (now : Z) s :
  control_mode
    (slew_rotor_runup (tick_dt now s)
       (sanity_check_runup_time (before_runup state now s)))
  = control_mode s.
Proof.
  rewrite slew_rotor_runup_eq, sanity_check_runup_time_eq, before_runup_eq,
    update_rotor_ramp_eq.
  reflexivity.
Qed.

(** X11.  The run-up complete flag after a tick: in disabled mode it is
    true; in any other mode it is true exactly when the run-up output is
    above the critical speed and either the flag was already true or the
    ramp and run-up outputs have both reached 1. *)
Theorem runup_complete_after_tick (state : RotorControlState) (now : Z) s :
  let s' := fst (output state now s) in
  (control_mode s = ROTOR_CONTROL_MODE_DISABLED -> runup_complete s' = true)
  /\ (control_mode s <> ROTOR_CONTROL_MODE_DISABLED ->
      (runup_complete s' = true <->
       (runup_complete s = true
        \/ (1 <= rotor_ramp_output s' /\ 1 <= rotor_runup_output s'))
       /\ critical_speed s < rotor_runup_output s')).
Proof.
  cbv zeta. split.
  - intros M. rewrite output_runup_complete. unfold update_rotor_runup.
    apply update_runup_complete_disabled.
    rewrite runup_stage_control_mode. exact M.
  - intros M. rewrite (output_runup_complete_enabled state now s M).
    generalize (rotor_ramp_output (fst (output state now s))),
               (rotor_runup_output (fst (output state now s))),
               (critical_speed s), (runup_complete s).
    intros r u c b.
    destruct b, (fle_spec 1 r), (fle_spec 1 u), (fle_spec u c);
      cbn [orb andb negb]; split; intros; try discriminate;
      try reflexivity; try (split; [tauto | lra]);
      try (exfalso; intuition (try discriminate; lra)).
Qed.

(** ** Output channel *)

Lemma output_channel_effect (state : RotorControlState) (now : Z) s :
  snd (output state now s)
  = write_rsc (control_output (fst (output state now s)))
      (fst (output state now s)).
Proof. unfold output. cbn [fst snd]. reflexivity. Qed.

Lemma write_rsc_no_output (servo_out : float) s :
  write_rsc servo_out s = NoOutput
  <-> control_mode s = ROTOR_CONTROL_MODE_DISABLED.
Proof.
  unfold write_rsc. destruct (control_mode s); cbn [mode_is_disabled];
    try (split; [reflexivity | reflexivity]);
    destruct (float_to_uint16 _); try destruct (0 <=? pwm_rev s)%Z;
    split; intros; discriminate.
Qed.

Lemma output_no_output (state : RotorControlState) (now : Z) s :
  snd (output state now s) = NoOutput
  <-> control_mode s = ROTOR_CONTROL_MODE_DISABLED.
Proof.
  rewrite output_channel_effect, write_rsc_no_output, output_control_mode.
  reflexivity.
Qed.

(** X12.  In disabled mode no call of any sequence of ticks and setter calls
    writes to the output channel. *)
Theorem disabled_mode_never_writes (cs : list rsc_call) s :
  control_mode s = ROTOR_CONTROL_MODE_DISABLED ->
  Forall (fun e => e = NoOutput) (channel_trace cs s).
Proof.
  revert s. induction cs as [| c cs IH]; intros s M; [constructor|].
  destruct c as [state now | low high negc rate | e r d f];
    cbn [channel_trace do_call].
  - constructor.
    + now apply output_no_output.
    + apply IH. rewrite output_control_mode. exact M.
  - apply IH. exact M.
  - apply IH. exact M.
Qed.

(** X13.  In any other mode every tick of a sequence reaches the output
    channel exactly once (with a PWM value, or with the undefined float to
    uint16_t conversion), and the setters never do: the channel trace has
    one entry per tick and none of them is "no output". *)
Theorem enabled_mode_writes_every_tick (cs : list rsc_call) s :
  control_mode s <> ROTOR_CONTROL_MODE_DISABLED ->
  length (channel_trace cs s) = length (filter is_output_call cs)
  /\ Forall (fun e => e <> NoOutput) (channel_trace cs s).
Proof.
  revert s. induction cs as [| c cs IH]; intros s M;
    [split; [reflexivity | constructor]|].
  destruct c as [state now | low high negc rate | e r d f];
    cbn [channel_trace do_call filter is_output_call length].
  - assert (M' : control_mode (fst (output state now s))
                 <> ROTOR_CONTROL_MODE_DISABLED)
      by (rewrite output_control_mode; exact M).
    destruct (IH _ M') as [L F]. split; [now rewrite L|].
    constructor; [|exact F].
    intros E. apply output_no_output in E. contradiction.
  - apply IH. exact M.
  - apply IH. exact M.
Qed.

(** ** PWM mapper *)

Lemma float_to_uint16_floor (q : float) :
  0 <= q -> (Qfloor q < 65536)%Z -> float_to_uint16 q = Some (Qfloor q).
Proof.
  destruct q as [n d]. unfold Qle, float_to_uint16, Qfloor.
  cbn [Qnum Qden]. intros N B.
  rewrite Z.quot_div_nonneg by lia.
  assert (0 <= n / Z.pos d)%Z by (apply Z.div_pos; lia).
  destruct (Z.leb_spec 0 (n / Z.pos d)); [|lia].
  destruct (Z.ltb_spec (n / Z.pos d) 65536); [reflexivity | lia].
Qed.

Lemma scaled_floor_bounds (x : float) (d : Z) :
  in_unit x -> (0 <= d)%Z ->
  0 <= x * inject_Z d /\ (0 <= Qfloor (x * inject_Z d) <= d)%Z.
Proof.
  intros [X0 X1] D.
  assert (P : 0 <= inject_Z d)
    by (change 0 with (inject_Z 0); now rewrite <- Zle_Qle).
  assert (A : 0 <= x * inject_Z d) by (apply Qmult_le_0_compat; assumption).
  assert (B : x * inject_Z d <= inject_Z d).
  { setoid_replace (inject_Z d) with (1 * inject_Z d) at 2 by ring.
    apply Qmult_le_compat_r; assumption. }
  split; [exact A|]. split.
  - change 0%Z with (Qfloor 0). now apply Qfloor_resp_le.
  - apply Z.le_trans with (Qfloor (inject_Z d));
      [now apply Qfloor_resp_le | rewrite Qfloor_Z; lia].
Qed.

(** X14.  With PWM limits 0 <= pwm_min <= pwm_max <= 32767 and a mode
    other than disabled, the PWM mapper sends command 0 to pwm_min and
    command 1 to pwm_max when pwm_rev >= 0, and the other way round when
    pwm_rev < 0. *)
Theorem write_rsc_endpoints s :
  control_mode s <> ROTOR_CONTROL_MODE_DISABLED ->
  pwm_limits_ordered s ->
  ((0 <= pwm_rev s)%Z ->
   write_rsc 0 s = SetOutputPwm (pwm_min s)
   /\ write_rsc 1 s = SetOutputPwm (pwm_max s))
  /\ ((pwm_rev s < 0)%Z ->
      write_rsc 0 s = SetOutputPwm (pwm_max s)
      /\ write_rsc 1 s = SetOutputPwm (pwm_min s)).
Proof.
  intros M [O B]. apply enabled_mode in M. unfold write_rsc. rewrite M.
  assert (E0 : float_to_uint16 (0 * inject_Z (pwm_max s - pwm_min s))
               = Some 0%Z) by reflexivity.
  assert (E1 : float_to_uint16 (1 * inject_Z (pwm_max s - pwm_min s))
               = Some (pwm_max s - pwm_min s)%Z).
  { unfold float_to_uint16. cbn [Qnum Qden Qmult inject_Z].
    rewrite Z.mul_1_l. change (Z.pos (1 * 1)) with 1%Z.
    rewrite Z.quot_1_r.
    destruct (Z.leb_spec 0 (pwm_max s - pwm_min s)); [|lia].
    destruct (Z.ltb_spec (pwm_max s - pwm_min s) 65536);
      [reflexivity | lia]. }
  rewrite E0, E1. unfold int_to_uint16.
  split; intros R.
  - destruct (Z.leb_spec 0 (pwm_rev s)); [|lia].
    split; f_equal; rewrite Z.mod_small; lia.
  - destruct (Z.leb_spec 0 (pwm_rev s)); [lia|].
    split; f_equal; rewrite Z.mod_small; lia.
Qed.

(** X15.  Under the same conditions the PWM mapper is monotone on [0,1]:
    a larger command gives a PWM value that is no smaller when pwm_rev >= 0
    and no larger when pwm_rev < 0; the two polarities mirror each other
    around the middle of the range. *)
Theorem write_rsc_monotone (x y : float) s :
  control_mode s <> ROTOR_CONTROL_MODE_DISABLED ->
  pwm_limits_ordered s ->
  in_unit x -> in_unit y -> x <= y ->
  exists px py : Z,
    (0 <= px <= py)%Z /\ (py <= pwm_max s - pwm_min s)%Z
    /\ ((0 <= pwm_rev s)%Z ->
        write_rsc x s = SetOutputPwm (pwm_min s + px)
        /\ write_rsc y s = SetOutputPwm (pwm_min s + py))
    /\ ((pwm_rev s < 0)%Z ->
        write_rsc x s = SetOutputPwm (pwm_max s - px)
        /\ write_rsc y s = SetOutputPwm (pwm_max s - py)).
Proof.
  intros M [O B] X Y L. apply enabled_mode in M.
  set (d := (pwm_max s - pwm_min s)%Z).
  assert (D : (0 <= d)%Z) by (unfold d; lia).
  destruct (scaled_floor_bounds x d X D) as (X0 & Xl & Xu).
  destruct (scaled_floor_bounds y d Y D) as (Y0 & Yl & Yu).
  assert (P : 0 <= inject_Z d)
    by (change 0 with (inject_Z 0); now rewrite <- Zle_Qle).
  assert (Mo : (Qfloor (x * inject_Z d) <= Qfloor (y * inject_Z d))%Z).
  { apply Qfloor_resp_le. apply Qmult_le_compat_r; assumption. }
  exists (Qfloor (x * inject_Z d)), (Qfloor (y * inject_Z d)).
  split; [lia|]. split; [exact Yu|].
  unfold write_rsc. rewrite M. fold d.
  rewrite (float_to_uint16_floor _ X0) by (unfold d in *; lia).
  rewrite (float_to_uint16_floor _ Y0) by (unfold d in *; lia).
  unfold int_to_uint16.
  split; intros R.
  - destruct (Z.leb_spec 0 (pwm_rev s)); [|lia].
    split; f_equal; rewrite Z.mod_small; unfold d in *; lia.
  - destruct (Z.leb_spec 0 (pwm_rev s)); [lia|].
    split; f_equal; rewrite Z.mod_small; unfold d in *; lia.
Qed.

(** ** Elapsed time *)

(** X16.  The elapsed time of a tick is never negative.  After a tick at
    clock reading now1, the next tick at now2 sees (now2 - now1)
    microseconds when the clock has advanced, the bootstrap 1 ms when now1
    was 0, and (now2 + 2^64 - now1) microseconds when the clock reading
    has gone down, the difference being taken on unsigned 64-bit
    integers. *)
Theorem elapsed_time_between_ticks
    (state : RotorControlState) (now1 now2 : Z) s :
  let s1 := fst (output state now1 s) in
  0 <= tick_dt now1 s /\ 0 <= tick_dt now2 s1
  /\ (now1 = 0%Z -> tick_dt now2 s1 = 1 # 1000)
  /\ ((0 < now1 <= now2)%Z -> (now2 < 2 ^ 64)%Z ->
      tick_dt now2 s1 = (1 # 1000000) * inject_Z (now2 - now1))
  /\ ((0 <= now2 < now1)%Z -> (now1 < 2 ^ 64)%Z ->
      tick_dt now2 s1 = (1 # 1000000) * inject_Z (now2 + 2 ^ 64 - now1)).
Proof.
  cbv zeta. split; [apply tick_dt_nonneg|]. split; [apply tick_dt_nonneg|].
  unfold tick_dt at 1 2 3. rewrite output_last_update_us.
  split; [|split].
  - intros ->. reflexivity.
  - intros A B. destruct (Z.eqb_spec now1 0); [lia|].
    rewrite Z.mod_small by lia. reflexivity.
  - intros A B. destruct (Z.eqb_spec now1 0); [lia|].
    replace ((now2 - now1) mod 2 ^ 64)%Z with (now2 + 2 ^ 64 - now1)%Z;
      [reflexivity|].
    apply Z.mod_unique with (q := (-1)%Z); lia.
Qed.

(** ** Run-up and spin-down over many ticks *)

(** The run-up time the run-up estimator divides by, when the stored times
    are already in order. *)
Lemma runup_stage_times (state : RotorControlState) (now : Z) s :
  (1 <= ramp_time s <= runup_time s)%Z ->
  runup_time (sanity_check_runup_time (before_runup state now s))
  = runup_time s
  /\ ramp_time (fst (output state now s)) = ramp_time s
  /\ runup_time (fst (output state now s)) = runup_time s.
Proof.
  intros [T U].
  assert (Er : ramp_time (before_runup state now s) = ramp_time s).
  { rewrite before_runup_eq, update_rotor_ramp_eq. fields.
    unfold sanity_check_ramp_time. fields.
    destruct (Z.leb_spec (ramp_time s) 0); [lia | reflexivity]. }
  assert (Eu : runup_time (before_runup state now s) = runup_time s).
  { rewrite before_runup_eq, update_rotor_ramp_eq. reflexivity. }
  assert (E : runup_time (sanity_check_runup_time (before_runup state now s))
              = runup_time s).
  { revert Er Eu. generalize (before_runup state now s). intros b Er Eu.
    unfold sanity_check_runup_time. rewrite Er, Eu.
    destruct (Z.ltb_spec (runup_time s) (ramp_time s)); [lia|].
    rewrite Eu. destruct (Z.leb_spec (runup_time s) 0); [lia | exact Eu]. }
  split; [exact E|]. split.
  - rewrite output_ramp_time. unfold sanity_check_ramp_time.
    destruct (Z.leb_spec (ramp_time s) 0); [lia | reflexivity].
  - rewrite output_runup_time. exact E.
Qed.



Lemma run_output_cons
    (state : RotorControlState) (now : Z) (nows : list Z) s :
  run (map (Call_output state) (now :: nows)) s
  = run (map (Call_output state) nows) (fst (output state now s)).
Proof.
  change (map (Call_output state) (now :: nows))
    with (Call_output state now :: map (Call_output state) nows).
  rewrite run_cons. apply f_equal. reflexivity.
Qed.


(** One Stop or Idle tick does not raise the run-up output and keeps it
    non-negative. *)
Lemma idle_tick_runup (state : RotorControlState) (now : Z) s :
  state <> ROTOR_CONTROL_ACTIVE ->
  0 <= rotor_ramp_output s -> 0 <= rotor_runup_output s ->
  0 <= rotor_runup_output (fst (output state now s)) <= rotor_runup_output s.
Proof.
  intros A R U.
  pose proof (ramp_down_step state now s A R) as Z0.
  destruct (runup_stage_inputs state now s) as [Er Eu].
  destruct (slew_rotor_runup_law (tick_dt now s)
              (sanity_check_runup_time (before_runup state now s))
              (tick_dt_nonneg now s)
              (proj1 (sanity_check_runup_time_ge _))) as (_ & _ & B & _).
  rewrite <- output_rotor_runup_output, Er, Eu, Z0 in B.
  apply B. exact U.
Qed.

Lemma idle_tick_flag (state : RotorControlState) (now : Z) s :
  state <> ROTOR_CONTROL_ACTIVE ->
  control_mode s <> ROTOR_CONTROL_MODE_DISABLED ->
  0 <= rotor_ramp_output s ->
  (runup_complete (fst (output state now s)) = true
   <-> runup_complete s = true
       /\ critical_speed s < rotor_runup_output (fst (output state now s))).
Proof.
  intros A M R.
  rewrite (output_runup_complete_enabled state now s M).
  rewrite (ramp_down_step state now s A R).
  generalize (rotor_runup_output (fst (output state now s))),
             (critical_speed s), (runup_complete s).
  intros u c b.
  destruct (fle_spec 1 0) as [X | _]; [lra|].
  destruct b, (fle_spec 1 u), (fle_spec u c);
    cbn [orb andb negb]; split; intros Y; try discriminate;
    try reflexivity; try (split; [reflexivity | lra]);
    try (destruct Y; try discriminate; lra).
Qed.

Lemma spin_down_ticks (state : RotorControlState) (nows : list Z) :
  forall s,
  state <> ROTOR_CONTROL_ACTIVE ->
  0 <= rotor_ramp_output s -> 0 <= rotor_runup_output s ->
  control_mode s <> ROTOR_CONTROL_MODE_DISABLED ->
  let s' := run (map (Call_output state) nows) s in
  0 <= rotor_ramp_output s'
  /\ 0 <= rotor_runup_output s' <= rotor_runup_output s
  /\ (nows <> [] ->
      rotor_ramp_output s' = 0
      /\ (runup_complete s' = true
          <-> runup_complete s = true
              /\ critical_speed s < rotor_runup_output s')).
Proof.
  induction nows as [| now nows IH]; intros s A R U M; cbv zeta.
  - change (run (map (Call_output state) []) s) with s.
    split; [exact R|]. split; [lra | congruence].
  - rewrite run_output_cons.
    pose proof (ramp_down_step state now s A R) as R'.
    pose proof (idle_tick_runup state now s A R U) as [U1 U2].
    pose proof (idle_tick_flag state now s A M R) as F.
    assert (K' : critical_speed (fst (output state now s))
                 = critical_speed s) by apply output_critical_speed.
    assert (M' : control_mode (fst (output state now s))
                 <> ROTOR_CONTROL_MODE_DISABLED)
      by (rewrite output_control_mode; exact M).
    set (s1 := fst (output state now s)) in *.
    destruct (IH s1 A ltac:(rewrite R'; lra) U1 M') as (C & [D1 D2] & G).
    split; [exact C|]. split; [lra|]. intros _.
    destruct nows as [| now2 nows].
    + change (run (map (Call_output state) []) s1) with s1.
      split; [exact R' | exact F].
    + destruct (G ltac:(discriminate)) as [G1 G2].
      split; [exact G1|]. rewrite G2, F, K'.
      split; [intros ((X1 & X2) & X3); split; assumption|].
      intros (X1 & X3). split; [split|]; try assumption. lra.
Qed.

(** X18.  Spin-down.  Over one or more Stop ticks (or Idle ticks), at any
    times and with any ramp and run-up times, from non-negative ramp and
    run-up outputs in a mode other than disabled: the ramp output is
    exactly 0, the run-up output has not risen and is not negative, and
    run-up is complete exactly when it was complete at the start and the
    run-up output is still above critical_speed. *)
Theorem spin_down (state : RotorControlState) (nows : list Z) s :
  state <> ROTOR_CONTROL_ACTIVE ->
  nows <> [] ->
  0 <= rotor_ramp_output s -> 0 <= rotor_runup_output s ->
  control_mode s <> ROTOR_CONTROL_MODE_DISABLED ->
  let s' := run (map (Call_output state) nows) s in
  rotor_ramp_output s' = 0
  /\ 0 <= rotor_runup_output s' <= rotor_runup_output s
  /\ (runup_complete s' = true
      <-> runup_complete s = true
          /\ critical_speed s < rotor_runup_output s').
Proof.
  intros A N R U M s'.
  destruct (spin_down_ticks state nows s A R U M) as (_ & B & C).
  fold s' in B, C. destruct (C N) as [C1 C2].
  split; [exact C1|]. split; [exact B | exact C2].
Qed.

(** ** Call sequences *)

(** X19.  Over any sequence of ticks and setter calls the ramp and run-up
    outputs stay in [0,1] once they are there, whatever the configuration
    and the values the setters store. *)
Theorem estimators_stay_in_unit (cs : list rsc_call) s :
  in_unit (rotor_ramp_output s) -> in_unit (rotor_runup_output s) ->
  in_unit (rotor_ramp_output (run cs s))
  /\ in_unit (rotor_runup_output (run cs s)).
Proof.
  revert s. induction cs as [| c cs IH]; intros s R U; [split; assumption|].
  rewrite run_cons.
  destruct c as [state now | low high negc rate | e r d f];
    cbn [do_call]; try (apply IH; assumption).
  pose proof (output_ramp_bounds state now s (proj1 R)) as [R0 R1].
  pose proof (ramp_target_le_1 state) as T.
  apply IH; split.
  - exact R0.
  - lra.
  - apply output_runup_ge_0; [apply R | apply U].
  - apply output_runup_le; [exact T | apply U].
Qed.

(** X20.  Ramp and run-up times that are already in order
    (1 <= ramp_time <= runup_time) are never modified, by any sequence of
    ticks and setter calls. *)
Theorem ordered_times_are_kept (cs : list rsc_call) s :
  (1 <= ramp_time s <= runup_time s)%Z ->
  ramp_time (run cs s) = ramp_time s
  /\ runup_time (run cs s) = runup_time s.
Proof.
  revert s. induction cs as [| c cs IH]; intros s TU;
    [split; reflexivity|].
  rewrite run_cons.
  destruct c as [state now | low high negc rate | e r d f]; cbn [do_call].
  - destruct (runup_stage_times state now s TU) as (_ & Er & Eu).
    destruct (IH (fst (output state now s))) as [A B].
    + rewrite Er, Eu. exact TU.
    + rewrite A, B. split; assumption.
  - destruct (IH (set_power_output_range low high negc rate s) TU)
      as [A B].
    rewrite A, B. split; reflexivity.
  - destruct (IH (set_gov_enable e r d f s) TU) as [A B].
    rewrite A, B. split; reflexivity.
Qed.

(** What the two estimators read. *)
Lemma update_rotor_ramp_ext (tgt dt : float) (x y : AP_MotorsHeli_RSC PID) :
  rotor_ramp_output x = rotor_ramp_output y ->
  rotor_runup_output x = rotor_runup_output y ->
  ramp_time x = ramp_time y ->
  rotor_ramp_output (update_rotor_ramp tgt dt x)
  = rotor_ramp_output (update_rotor_ramp tgt dt y)
  /\ ramp_time (update_rotor_ramp tgt dt x)
     = ramp_time (update_rotor_ramp tgt dt y).
Proof.
  intros Hr Hu Ht. destruct x, y.
  cbn [rotor_ramp_output rotor_runup_output ramp_time] in Hr, Hu, Ht.
  subst. unfold update_rotor_ramp, sanity_check_ramp_time. fields.
  repeat split_test; split; reflexivity.
Qed.

Lemma runup_stage_ext (dt : float) (x y : AP_MotorsHeli_RSC PID) :
  rotor_ramp_output x = rotor_ramp_output y ->
  rotor_runup_output x = rotor_runup_output y ->
  ramp_time x = ramp_time y ->
  runup_time x = runup_time y ->
  rotor_runup_output (slew_rotor_runup dt (sanity_check_runup_time x))
  = rotor_runup_output (slew_rotor_runup dt (sanity_check_runup_time y))
  /\ runup_time (sanity_check_runup_time x)
     = runup_time (sanity_check_runup_time y).
Proof.
  intros Hr Hu Ht Hv. destruct x, y.
  cbn [rotor_ramp_output rotor_runup_output ramp_time runup_time]
    in Hr, Hu, Ht, Hv.
  subst. unfold slew_rotor_runup, sanity_check_runup_time. fields.
  repeat split_test; split; reflexivity.
Qed.

(** X21.  The two setters do not disturb the estimators: a tick that
    follows a call of set_power_output_range or set_gov_enable produces the
    same ramp output, run-up output, run-up complete flag and stored times
    as the same tick without that call. *)
Theorem setters_do_not_affect_estimators
    (c : rsc_call) (state : RotorControlState) (now : Z) s :
  is_output_call c = false ->
  let a := fst (output state now (do_call c s)) in
  let b := fst (output state now s) in
  rotor_ramp_output a = rotor_ramp_output b
  /\ rotor_runup_output a = rotor_runup_output b
  /\ runup_complete a = runup_complete b
  /\ ramp_time a = ramp_time b /\ runup_time a = runup_time b.
Proof.
  intros C. cbv zeta.
  set (x := do_call c s).
  assert (F : rotor_ramp_output x = rotor_ramp_output s
              /\ rotor_runup_output x = rotor_runup_output s
              /\ ramp_time x = ramp_time s /\ runup_time x = runup_time s
              /\ last_update_us x = last_update_us s
              /\ control_mode x = control_mode s
              /\ critical_speed x = critical_speed s
              /\ runup_complete x = runup_complete s).
  { unfold x. destruct c; [discriminate C | |]; repeat split. }
  clearbody x. destruct F as (Fr & Fu & Ft & Fv & Fl & Fm & Fk & Fc).
  assert (Dt : tick_dt now x = tick_dt now s)
    by (unfold tick_dt; rewrite Fl; reflexivity).
  destruct (update_rotor_ramp_ext (ramp_target state) (tick_dt now s)
              (with_last_update_us now x) (with_last_update_us now s)
              Fr Fu Ft) as [Er Et].
  assert (Ra : rotor_ramp_output (fst (output state now x))
               = rotor_ramp_output (fst (output state now s))).
  { rewrite !output_rotor_ramp_output, Dt. exact Er. }
  assert (Bx : forall z : AP_MotorsHeli_RSC PID,
             rotor_ramp_output (before_runup state now z)
             = rotor_ramp_output (fst (output state now z))
             /\ rotor_runup_output (before_runup state now z)
                = rotor_runup_output z
             /\ ramp_time (before_runup state now z)
                = ramp_time (update_rotor_ramp (ramp_target state)
                               (tick_dt now z) (with_last_update_us now z))
             /\ runup_time (before_runup state now z) = runup_time z).
  { intros z. rewrite output_rotor_ramp_output.
    rewrite before_runup_eq. fields.
    rewrite (update_rotor_ramp_eq _ _ (with_last_update_us now z)).
    repeat split. }
  destruct (Bx x) as (X1 & X2 & X3 & X4).
  destruct (Bx s) as (S1 & S2 & S3 & S4).
  destruct (runup_stage_ext (tick_dt now s)
              (before_runup state now x) (before_runup state now s))
    as [Eu Ev].
  { rewrite X1, S1. exact Ra. }
  { rewrite X2, S2. exact Fu. }
  { rewrite X3, S3, Dt. exact Et. }
  { rewrite X4, S4. exact Fv. }
  assert (Ua : rotor_runup_output (fst (output state now x))
               = rotor_runup_output (fst (output state now s))).
  { rewrite !output_rotor_runup_output, Dt. exact Eu. }
  split; [exact Ra|]. split; [exact Ua|]. split; [|split].
  - destruct (control_mode s) eqn:Ms.
    + rewrite !output_runup_complete. unfold update_rotor_runup.
      rewrite !update_runup_complete_disabled; try reflexivity;
        rewrite runup_stage_control_mode; congruence.
    + rewrite !output_runup_complete_enabled by congruence.
      rewrite Ra, Ua, Fc, Fk. reflexivity.
    + rewrite !output_runup_complete_enabled by congruence.
      rewrite Ra, Ua, Fc, Fk. reflexivity.
    + rewrite !output_runup_complete_enabled by congruence.
      rewrite Ra, Ua, Fc, Fk. reflexivity.
    + rewrite !output_runup_complete_enabled by congruence.
      rewrite Ra, Ua, Fc, Fk. reflexivity.
  - rewrite !output_ramp_time. unfold sanity_check_ramp_time. rewrite Ft.
    destruct (ramp_time s <=? 0)%Z; fields; auto.
  - rewrite !output_runup_time. exact Ev.
Qed.

End Further.

(** * The further properties on concrete inputs *)

(** Back to Active with the rotor still turning: the ramp output restarts
    from the run-up output 0.6 and reaches 0.65 after 0.1 s. *)
Example catch_up_tick :
  rotor_ramp_output (fst (output ROTOR_CONTROL_ACTIVE 101000 rsc_catch_up))
  == 13 # 20.
Proof. by_eval. Qed.

(** Times out of order are stored coerced by the first tick: ramp_time 0
    becomes 1 and runup_time -3 becomes 1. *)
Example bad_times_tick :
  let s := fst (output ROTOR_CONTROL_ACTIVE 101000 rsc_bad_times) in
  ramp_time s = 1%Z /\ runup_time s = 1%Z
  /\ rotor_ramp_output s == 1 # 10 /\ rotor_runup_output s == 1 # 10.
Proof. by_eval. Qed.

(** The channel trace of the short flight from rest; the last two ticks run
    with the slew rate of 50 percent per second set in between, which keeps
    the Stop tick at 0.19 - 0.05. *)
Example example_flight_trace :
  channel_trace example_calls rsc_started
  = [SetOutputPwm 1100; SetOutputPwm 1145; SetOutputPwm 1190;
     SetOutputPwm 1140].
Proof. vm_compute. reflexivity. Qed.

(** X1: governor output 0.3 requested from 0.6 with a slew rate of 100
    percent per second and dt = 0.1 s. *)
Lemma control_output_slew_limited_witness :
  control_output rsc_governor_low_rpm
  - tick_dt 101000 rsc_governor_low_rpm
    * inject_Z (power_slewrate rsc_governor_low_rpm) * (1 # 100)
  <= control_output
       (fst (output ROTOR_CONTROL_ACTIVE 101000 rsc_governor_low_rpm))
  <= control_output rsc_governor_low_rpm
     + tick_dt 101000 rsc_governor_low_rpm
       * inject_Z (power_slewrate rsc_governor_low_rpm) * (1 # 100).
Proof.
  pose proof (control_output_slew_limited ROTOR_CONTROL_ACTIVE 101000
                rsc_governor_low_rpm) as W.
  cbv zeta in W. apply W. by_eval.
Defined.

(** X2 *)
Lemma idle_control_output_witness :
  control_output (fst (output ROTOR_CONTROL_IDLE 101000 rsc_full_speed))
  = idle_output rsc_full_speed.
Proof. apply (idle_control_output 101000 rsc_full_speed). by_eval. Defined.

(** X3 *)
Lemma ramp_down_is_instant_witness :
  rotor_ramp_output (fst (output ROTOR_CONTROL_STOP 101000 rsc_full_speed))
  = 0.
Proof.
  apply (ramp_down_is_instant ROTOR_CONTROL_STOP 101000 rsc_full_speed);
    by_eval.
Defined.

(** X4 *)
Lemma active_passthrough_law_witness :
  control_output (fst (output ROTOR_CONTROL_ACTIVE 101000 rsc_reversed))
  = passthrough_output (fst (output ROTOR_CONTROL_ACTIVE 101000 rsc_reversed)).
Proof.
  apply (active_passthrough_law 101000 rsc_reversed); [by_eval|].
  left. reflexivity.
Defined.

(** X5, in open-loop mode and in governor mode without a PID controller. *)
Lemma active_open_loop_law_witness :
  control_output
    (fst (output ROTOR_CONTROL_ACTIVE 101000
            (example_open_loop (1 # 2) (7 # 10) (3 # 10) (1 # 2))))
  = calc_open_loop_power_control_output
      (fst (output ROTOR_CONTROL_ACTIVE 101000
              (example_open_loop (1 # 2) (7 # 10) (3 # 10) (1 # 2)))).
Proof.
  apply (active_open_loop_law 101000
           (example_open_loop (1 # 2) (7 # 10) (3 # 10) (1 # 2)));
    [by_eval|].
  left. reflexivity.
Defined.

(** X6: the PID receives (1 * 1500 - 1200) / 100 = 3. *)
Lemma governor_drives_pid_witness :
  pid_rotor_gov
    (fst (output ROTOR_CONTROL_ACTIVE 101000 rsc_governor_low_rpm))
  = Some
      (snd
         (get_pid
            (set_input_filter_all
               ((rotor_ramp_output
                   (fst (output ROTOR_CONTROL_ACTIVE 101000
                           rsc_governor_low_rpm))
                 * inject_Z (governor_rpm_setpoint rsc_governor_low_rpm)
                 - rpm_feedback rsc_governor_low_rpm) / 100)
               {| kP := 1 # 10; p_input := 0 |})))
  /\ in_unit (control_output
                (fst (output ROTOR_CONTROL_ACTIVE 101000
                        rsc_governor_low_rpm))).
Proof.
  pose proof (governor_drives_pid 101000 {| kP := 1 # 10; p_input := 0 |}
                rsc_governor_low_rpm
                ltac:(by_eval) ltac:(by_eval) ltac:(by_eval) ltac:(by_eval))
    as W.
  cbv zeta in W. destruct W as (A & _ & C).
  split; [exact A | apply C; by_eval].
Defined.


(** X8: equal high and negative-collective levels, load -0.5. *)
Lemma open_loop_sign_symmetry_witness :
  calc_open_loop_power_control_output
    (example_open_loop 1 (7 # 10) (7 # 10) (-(1 # 2)))
  == calc_open_loop_power_control_output
       (example_open_loop 1 (7 # 10) (7 # 10) (1 # 2)).
Proof.
  rewrite (open_loop_sign_symmetry
             (example_open_loop 1 (7 # 10) (7 # 10) (-(1 # 2))))
    by by_eval.
  rewrite (open_loop_sign_symmetry
             (example_open_loop 1 (7 # 10) (7 # 10) (1 # 2)))
    by by_eval.
  by_eval.
Defined.

(** X9: the ramp output restarts from the run-up output 0.6. *)
Lemma active_ramp_law_witness :
  rotor_ramp_output (fst (output ROTOR_CONTROL_ACTIVE 101000 rsc_catch_up))
  == Qmin 1 (Qmax (rotor_ramp_output rsc_catch_up)
               (rotor_runup_output rsc_catch_up)
             + tick_dt 101000 rsc_catch_up
               / inject_Z (Z.max 1 (ramp_time rsc_catch_up))).
Proof.
  pose proof (active_ramp_law 101000 rsc_catch_up) as W.
  cbv zeta in W. destruct W as (_ & B & _). apply B. by_eval.
Defined.


(** X11 *)
Lemma runup_complete_after_tick_witness :
  runup_complete (fst (output ROTOR_CONTROL_IDLE 101000 rsc_disabled)) = true
  /\ runup_complete (fst (output ROTOR_CONTROL_IDLE 101000 rsc_full_speed))
     = true.
Proof.
  pose proof (runup_complete_after_tick ROTOR_CONTROL_IDLE 101000
                rsc_disabled) as W1.
  pose proof (runup_complete_after_tick ROTOR_CONTROL_IDLE 101000
                rsc_full_speed) as W2.
  cbv zeta in W1, W2. destruct W1 as [A _]. destruct W2 as [_ B].
  split; [apply A; by_eval|].
  apply B; [by_eval|]. split; [left; reflexivity | by_eval].
Defined.

(** X12 *)
Lemma disabled_mode_never_writes_witness :
  Forall (fun e => e = NoOutput) (channel_trace example_calls rsc_disabled).
Proof. apply (disabled_mode_never_writes example_calls rsc_disabled). by_eval. Defined.

(** X13 *)
Lemma enabled_mode_writes_every_tick_witness :
  length (channel_trace example_calls rsc_started)
  = length (filter is_output_call example_calls)
  /\ Forall (fun e => e <> NoOutput) (channel_trace example_calls rsc_started).
Proof.
  apply (enabled_mode_writes_every_tick example_calls rsc_started). by_eval.
Defined.

(** X14, for both polarities. *)
Lemma write_rsc_endpoints_witness :
  (write_rsc 0 rsc_started = SetOutputPwm (pwm_min rsc_started)
   /\ write_rsc 1 rsc_started = SetOutputPwm (pwm_max rsc_started))
  /\ (write_rsc 0 rsc_reversed = SetOutputPwm (pwm_max rsc_reversed)
      /\ write_rsc 1 rsc_reversed = SetOutputPwm (pwm_min rsc_reversed)).
Proof.
  split.
  - apply (write_rsc_endpoints rsc_started); by_eval.
  - apply (write_rsc_endpoints rsc_reversed); by_eval.
Defined.

(** X15 *)
Lemma write_rsc_monotone_witness :
  exists px py : Z,
    (0 <= px <= py)%Z
    /\ (py <= pwm_max rsc_reversed - pwm_min rsc_reversed)%Z
    /\ ((0 <= pwm_rev rsc_reversed)%Z ->
        write_rsc (1 # 4) rsc_reversed
        = SetOutputPwm (pwm_min rsc_reversed + px)
        /\ write_rsc (3 # 4) rsc_reversed
           = SetOutputPwm (pwm_min rsc_reversed + py))
    /\ ((pwm_rev rsc_reversed < 0)%Z ->
        write_rsc (1 # 4) rsc_reversed
        = SetOutputPwm (pwm_max rsc_reversed - px)
        /\ write_rsc (3 # 4) rsc_reversed
           = SetOutputPwm (pwm_max rsc_reversed - py)).
Proof.
  apply (write_rsc_monotone (1 # 4) (3 # 4) rsc_reversed); by_eval.
Defined.

(** X16: the clock advancing from 2000 to 5000 us, and going down from 5000
    to 2000 us. *)
Lemma elapsed_time_between_ticks_witness :
  tick_dt 5000 (fst (output ROTOR_CONTROL_ACTIVE 2000 rsc_started))
  = (1 # 1000000) * inject_Z (5000 - 2000)
  /\ tick_dt 2000 (fst (output ROTOR_CONTROL_ACTIVE 5000 rsc_started))
     = (1 # 1000000) * inject_Z (2000 + 2 ^ 64 - 5000).
Proof.
  pose proof (elapsed_time_between_ticks ROTOR_CONTROL_ACTIVE 2000 5000
                rsc_started) as W1.
  pose proof (elapsed_time_between_ticks ROTOR_CONTROL_ACTIVE 5000 2000
                rsc_started) as W2.
  cbv zeta in W1, W2.
  destruct W1 as (_ & _ & _ & A & _). destruct W2 as (_ & _ & _ & _ & B).
  split; [apply A; by_eval | apply B; by_eval].
Defined.


(** X18: five Stop ticks of 0.1 s from full speed. *)
Lemma spin_down_witness :
  rotor_ramp_output
    (run (map (Call_output ROTOR_CONTROL_STOP)
            [101000; 201000; 301000; 401000; 501000]%Z) rsc_full_speed)
  = 0
  /\ 0 <= rotor_runup_output
            (run (map (Call_output ROTOR_CONTROL_STOP)
                    [101000; 201000; 301000; 401000; 501000]%Z)
               rsc_full_speed)
     <= rotor_runup_output rsc_full_speed.
Proof.
  pose proof (spin_down ROTOR_CONTROL_STOP
                [101000; 201000; 301000; 401000; 501000]%Z rsc_full_speed
                ltac:(by_eval) ltac:(by_eval) ltac:(by_eval) ltac:(by_eval)
                ltac:(by_eval))
    as W.
  cbv zeta in W. destruct W as (A & B & _). split; [exact A | exact B].
Defined.

(** X19 *)
Lemma estimators_stay_in_unit_witness :
  in_unit (rotor_ramp_output (run example_calls rsc_reversed))
  /\ in_unit (rotor_runup_output (run example_calls rsc_reversed)).
Proof. apply (estimators_stay_in_unit example_calls rsc_reversed); by_eval. Defined.

(** X20 *)
Lemma ordered_times_are_kept_witness :
  ramp_time (run example_calls rsc_started) = ramp_time rsc_started
  /\ runup_time (run example_calls rsc_started) = runup_time rsc_started.
Proof. apply (ordered_times_are_kept example_calls rsc_started). by_eval. Defined.

(** X21 *)
Lemma setters_do_not_affect_estimators_witness :
  rotor_ramp_output
    (fst (output ROTOR_CONTROL_ACTIVE 101000
            (do_call (Call_set_gov_enable true 1500 50 1400) rsc_reversed)))
  = rotor_ramp_output (fst (output ROTOR_CONTROL_ACTIVE 101000 rsc_reversed)).
Proof.
  pose proof (setters_do_not_affect_estimators
                (Call_set_gov_enable true 1500 50 1400)
                ROTOR_CONTROL_ACTIVE 101000 rsc_reversed eq_refl) as W.
  cbv zeta in W. destruct W as (A & _). exact A.
Defined.
